(** * Virtual Energy Trading: order admission, P&L and time-zone utilities

    A shallow embedding of the trading front end's pure logic
    (P&L calculation, slot caps, order deletion, market-hours checks and the
    Eastern-time conversion helpers) together with the matching rule that
    the documentation fixes for the back end. *)

From Stdlib Require Import ZArith QArith Qround List Bool String Ascii Lia Lqa
  Permutation Floats.SpecFloat.
Import ListNotations.

Local Open Scope Z_scope.

(* ================================================================== *)
(** ** JavaScript numbers *)
(* ================================================================== *)

(** Numbers read over the rationals: a finite JavaScript number is an
    exact rational, and the three non-finite values are kept apart, so that
    the arithmetic of [calculatePnL] can be followed through a division by
    zero.  Binary rounding of doubles and the sign of zero are outside this
    reading; they are in [Binary64] below. *)
Module JsNum.

Inductive number : Type :=
| NaN
| PosInf
| NegInf
| Num (q : Q).

Definition sign (a : number) : Z :=
  match a with
  | NaN => 0
  | PosInf => 1
  | NegInf => -1
  | Num q => match (q ?= 0)%Q with Lt => -1 | Eq => 0 | Gt => 1 end
  end.

Definition infinity_of_sign (s : Z) : number :=
  if s =? 0 then NaN else if 0 <? s then PosInf else NegInf.

Definition neg (a : number) : number :=
  match a with
  | NaN => NaN
  | PosInf => NegInf
  | NegInf => PosInf
  | Num q => Num (- q)
  end.

Definition add (a b : number) : number :=
  match a, b with
  | NaN, _ | _, NaN => NaN
  | Num x, Num y => Num (x + y)
  | PosInf, NegInf | NegInf, PosInf => NaN
  | PosInf, _ | _, PosInf => PosInf
  | NegInf, _ | _, NegInf => NegInf
  end.

Definition sub (a b : number) : number := add a (neg b).

Definition mul (a b : number) : number :=
  match a, b with
  | NaN, _ | _, NaN => NaN
  | Num x, Num y => Num (x * y)
  | _, _ => infinity_of_sign (sign a * sign b)
  end.

Definition div (a b : number) : number :=
  match a, b with
  | NaN, _ | _, NaN => NaN
  | Num x, Num y =>
      if Qeq_bool y 0 then infinity_of_sign (sign a) else Num (x / y)
  | Num _, _ => Num 0
  | _, Num y => infinity_of_sign (sign a * (if Qle_bool 0 y then 1 else -1))
  | _, _ => NaN
  end.

(** [Math.round]: the nearest integer, ties towards plus infinity. *)
Definition round (a : number) : number :=
  match a with
  | Num x => Num (inject_Z (Qfloor (x + (1 # 2))))
  | _ => a
  end.

Definition of_nat (n : nat) : number := Num (inject_Z (Z.of_nat n)).

(** Truthiness of a number: [0] and [NaN] are falsy. *)
Definition truthy (a : number) : bool :=
  match a with
  | NaN => false
  | Num q => negb (Qeq_bool q 0)
  | _ => true
  end.

End JsNum.

(* ================================================================== *)
(** ** JavaScript numbers as they are stored *)
(* ================================================================== *)

(** A JavaScript number is an IEEE 754 binary64 value.  The values and
    the four operations are those of the standard library's [SpecFloat]
    at precision 53 and maximal exponent 1024 (round to nearest, ties to
    even).  A number written in decimal, in a source file or in a JSON
    response, denotes the nearest double: [lit]. *)
Module Binary64.

Definition prec : Z := 53.
Definition emax : Z := 1024.

Definition number : Type := spec_float.

Definition NaN : number := S754_nan.

(** The double of an integer. *)
Definition of_Z (k : Z) : number := binary_normalize prec emax k 0 false.

Definition of_nat (n : nat) : number := of_Z (Z.of_nat n).

(** The double nearest to the rational [n / d], for positive [n], [d]. *)
Definition nearest (negative : bool) (n d : positive) : number :=
  let '(mz, ez, lz) :=
    SFdiv_core_binary prec emax (Z.pos n) 0 (Z.pos d) 0 in
  binary_round_aux prec emax negative mz ez lz.

(** The double that a decimal (or any rational) notation denotes. *)
Definition lit (q : Q) : number :=
  match Qnum q with
  | Z0 => S754_zero false
  | Z.pos n => nearest false n (Qden q)
  | Z.neg n => nearest true n (Qden q)
  end.

Definition add : number -> number -> number := SFadd prec emax.
Definition sub : number -> number -> number := SFsub prec emax.
Definition mul : number -> number -> number := SFmul prec emax.
Definition div : number -> number -> number := SFdiv prec emax.

(** The rational a finite double stands for. *)
Definition value (x : number) : option Q :=
  match x with
  | S754_zero _ => Some 0%Q
  | S754_finite s m e =>
      Some (inject_Z (cond_Zopp s (Z.pos m)) * Qpower 2 e)%Q
  | _ => None
  end.


(** [Math.round]: the nearest integer, ties towards plus infinity; the
    sign of the argument is kept when the result is zero.  The integer is
    always a double: a double of magnitude 2^52 or more is an integer
    already. *)
Definition round (x : number) : number :=
  match x with
  | S754_finite s m e =>
      let v := (inject_Z (cond_Zopp s (Z.pos m)) * Qpower 2 e)%Q in
      binary_normalize prec emax (Qfloor (v + (1 # 2))) 0 s
  | _ => x
  end.

(** Truthiness of a number: both zeros and [NaN] are falsy. *)
Definition truthy (x : number) : bool :=
  match x with
  | S754_zero _ | S754_nan => false
  | _ => true
  end.

(** The same number up to the sign of zero (ECMAScript's
    SameValueZero). *)
Definition SameValueZero (a b : number) : Prop :=
  a = b \/ exists s s', a = S754_zero s /\ b = S754_zero s'.

End Binary64.

(* ================================================================== *)
(** ** Calendar arithmetic *)
(* ================================================================== *)

(** Instants are milliseconds since the Unix epoch, as in [Date.valueOf()].
    The proleptic Gregorian calendar is computed with the usual
    400-year-era algorithms; all divisions are floor divisions. *)
Module Civil.

Definition MS_PER_SECOND : Z := 1000.
Definition MS_PER_MINUTE : Z := 60000.
Definition MS_PER_HOUR : Z := 3600000.
Definition MS_PER_DAY : Z := 86400000.
Definition DAYS_PER_ERA : Z := 146097.
Definition EPOCH_SHIFT : Z := 719468.

Record date : Type := mkDate { year : Z; month : Z; day : Z }.

(** The year of the era of a day of the era, the day of that year
    (years start on 1 March), and its month and day of month. *)
Definition yoe_of_doe (doe : Z) : Z :=
  (doe - doe / 1460 + doe / 36524 - doe / 146096) / 365.

Definition doy_of_doe (doe : Z) : Z :=
  let yoe := yoe_of_doe doe in
  doe - (365 * yoe + yoe / 4 - yoe / 100).

Definition month_of_doy (doy : Z) : Z :=
  let mp := (5 * doy + 2) / 153 in
  if mp <? 10 then mp + 3 else mp - 9.

Definition day_of_doy (doy : Z) : Z :=
  let mp := (5 * doy + 2) / 153 in
  doy - (153 * mp + 2) / 5 + 1.

Definition civil_from_days (z : Z) : date :=
  let z := z + EPOCH_SHIFT in
  let era := z / DAYS_PER_ERA in
  let doe := z mod DAYS_PER_ERA in
  let yoe := yoe_of_doe doe in
  let doy := doy_of_doe doe in
  let m := month_of_doy doy in
  let y := yoe + era * 400 in
  {| year := if m <=? 2 then y + 1 else y;
     month := m;
     day := day_of_doy doy |}.

(** Days since the epoch of the [d]-th day of month [m] (1..12) of year
    [y]; [d] may lie outside the month and is then counted on linearly. *)
Definition days_from_civil (y m d : Z) : Z :=
  let y := if m <=? 2 then y - 1 else y in
  let era := y / 400 in
  let yoe := y mod 400 in
  let doy := (153 * (if 2 <? m then m - 3 else m + 9) + 2) / 5 + d - 1 in
  let doe := yoe * 365 + yoe / 4 - yoe / 100 + doy in
  era * DAYS_PER_ERA + doe - EPOCH_SHIFT.

(** Day of the week, 0 = Sunday; 1970-01-01 was a Thursday. *)
Definition weekday (z : Z) : Z := (z + 4) mod 7.

(** [Date.UTC(year, monthIndex, day, hours, minutes, seconds)]: out-of-range
    fields carry over, and a year in 0..99 is taken as 1900 + year. *)
Definition Date_UTC (y monthIndex d h mi s : Z) : Z :=
  let y := if (0 <=? y) && (y <=? 99) then 1900 + y else y in
  let ym := y + monthIndex / 12 in
  let mn := monthIndex mod 12 in
  (days_from_civil ym (mn + 1) 1 + d - 1) * MS_PER_DAY
  + h * MS_PER_HOUR + mi * MS_PER_MINUTE + s * MS_PER_SECOND.

(** Clock fields of a timestamp read as a local wall-clock value. *)
Definition date_of (local : Z) : date := civil_from_days (local / MS_PER_DAY).
Definition hour_of (local : Z) : Z := (local mod MS_PER_DAY) / MS_PER_HOUR.
Definition minute_of (local : Z) : Z :=
  (local mod MS_PER_HOUR) / MS_PER_MINUTE.
Definition second_of (local : Z) : Z :=
  (local mod MS_PER_MINUTE) / MS_PER_SECOND.

End Civil.

(* ================================================================== *)
(** ** Decimal strings *)
(* ================================================================== *)

Module Text.
Local Open Scope string_scope.
Local Open Scope Z_scope.

Definition digit (d : Z) : ascii := ascii_of_N (48 + Z.to_N d).

Definition digit_value (c : ascii) : option Z :=
  let n := Z.of_N (N_of_ascii c) in
  if (48 <=? n) && (n <=? 57) then Some (n - 48) else None.

(** [String(n)] for an integer [n]. *)
Fixpoint decimal_digits (fuel : nat) (n : Z) (acc : string) : string :=
  match fuel with
  | O => acc
  | S fuel' =>
      let acc' := String (digit (n mod 10)) acc in
      if n <? 10 then acc' else decimal_digits fuel' (n / 10) acc'
  end.

Definition decimal (n : Z) : string :=
  if n <? 0
  then String "-" (decimal_digits (S (Z.to_nat (Z.log2 (- n)))) (- n) "")
  else decimal_digits (S (Z.to_nat (Z.log2 n))) n "".

Fixpoint zeros (k : nat) : string :=
  match k with
  | O => ""
  | S k' => String "0" (zeros k')
  end.

(** [s.padStart(len, '0')] *)
Definition padStart (len : nat) (s : string) : string :=
  zeros (len - String.length s) ++ s.

Definition pad (len : nat) (n : Z) : string := padStart len (decimal n).

(** Reading exactly [k] decimal digits from the front of a string. *)
Fixpoint take_digits (k : nat) (acc : Z) (s : string) : option (Z * string) :=
  match k with
  | O => Some (acc, s)
  | S k' =>
      match s with
      | String c rest =>
          match digit_value c with
          | Some d => take_digits k' (10 * acc + d) rest
          | None => None
          end
      | EmptyString => None
      end
  end.

Definition expect (c : ascii) (s : string) : option string :=
  match s with
  | String c' rest => if Ascii.eqb c c' then Some rest else None
  | EmptyString => None
  end.

(** [s.split(sep)] for a one-character separator. *)
Fixpoint split (sep : ascii) (s : string) : list string :=
  match s with
  | EmptyString => [EmptyString]
  | String c rest =>
      if Ascii.eqb c sep then EmptyString :: split sep rest
      else match split sep rest with
           | piece :: pieces => String c piece :: pieces
           | [] => [String c EmptyString]
           end
  end.

Definition is_space (c : ascii) : bool :=
  let n := N_of_ascii c in
  (n =? 32)%N || ((9 <=? n)%N && (n <=? 13)%N).

Fixpoint trimStart (s : string) : string :=
  match s with
  | String c rest => if is_space c then trimStart rest else s
  | EmptyString => EmptyString
  end.

Fixpoint trimEnd (s : string) : string :=
  match s with
  | EmptyString => EmptyString
  | String c rest =>
      match trimEnd rest with
      | EmptyString => if is_space c then EmptyString
                       else String c EmptyString
      | rest' => String c rest'
      end
  end.

Definition trim (s : string) : string := trimEnd (trimStart s).

End Text.

(* ================================================================== *)
(** ** Bounded checks *)
(* ================================================================== *)

(** Facts about all two- and four-digit numbers are settled by running a
    boolean check over the whole range. *)
Module Range.
Import Civil Text.

Fixpoint all_from (fuel : nat) (i : Z) (p : Z -> bool) : bool :=
  match fuel with
  | O => true
  | S fuel' => if p i then all_from fuel' (i + 1) p else false
  end.

Definition digits2 (n : Z) : string :=
  String (digit (n / 10)) (String (digit (n mod 10)) EmptyString).

Definition digits4 (n : Z) : string :=
  String (digit (n / 1000))
    (String (digit (n / 100 mod 10))
       (String (digit (n / 10 mod 10))
          (String (digit (n mod 10)) EmptyString))).

Definition pad2_ok (n : Z) : bool := String.eqb (pad 2 n) (digits2 n).
Definition pad4_ok (n : Z) : bool := String.eqb (pad 4 n) (digits4 n).

End Range.

(* ================================================================== *)
(** ** The dayjs calls made by the sources *)
(* ================================================================== *)

(** The fragment of the dayjs library (with its utc and timezone plug-ins)
    that the sources call.  A time zone is the function giving, for an
    instant, the offset from UTC in minutes that is in force there. *)
Module Dayjs.
Import Civil Text.
Local Open Scope string_scope.
Local Open Scope Z_scope.

Definition Zone : Type := Z -> Z.

Definition fixedZone (minutes : Z) : Zone := fun _ => minutes.
Definition UTC : Zone := fixedZone 0.

(** Day of month of the first Sunday on or after day [d] of month [m]. *)
Definition sunday_on_or_after (y m d : Z) : Z :=
  d + (7 - weekday (days_from_civil y m d)) mod 7.

(** Daylight time in the United States (rule in force since 2007): from
    the second Sunday of March, 02:00 standard time (07:00 UTC), to the
    first Sunday of November, 02:00 daylight time (06:00 UTC). *)
Definition dst_start (y : Z) : Z :=
  days_from_civil y 3 (sunday_on_or_after y 3 8) * MS_PER_DAY
  + 7 * MS_PER_HOUR.

Definition dst_end (y : Z) : Z :=
  days_from_civil y 11 (sunday_on_or_after y 11 1) * MS_PER_DAY
  + 6 * MS_PER_HOUR.

Definition EST : Z := -300.
Definition EDT : Z := -240.

Definition is_dst (u : Z) : bool :=
  let y := year (civil_from_days (u / MS_PER_DAY)) in
  (dst_start y <=? u) && (u <? dst_end y).

(** The zone ['America/New_York']. *)
Definition America_New_York : Zone :=
  fun u => if is_dst u then EDT else EST.

(** The zone ['Europe/London']: summer time (rule in force since 1996)
    from the last Sunday of March, 01:00 UTC, to the last Sunday of
    October, 01:00 UTC. *)
Definition last_sunday_of_31 (y m : Z) : Z :=
  31 - weekday (days_from_civil y m 31).

Definition Europe_London : Zone :=
  fun u =>
    let y := year (civil_from_days (u / MS_PER_DAY)) in
    let summer_start :=
      days_from_civil y 3 (last_sunday_of_31 y 3) * MS_PER_DAY
      + MS_PER_HOUR in
    let summer_end :=
      days_from_civil y 10 (last_sunday_of_31 y 10) * MS_PER_DAY
      + MS_PER_HOUR in
    if (summer_start <=? u) && (u <? summer_end) then 60 else 0.

(** The instants whose New York wall-clock reading occurs twice: the
    last hour of daylight time and the first hour of standard time after
    it, which both read 01:00 to 01:59 on the day the clocks go back. *)
Definition in_repeated_hour (u : Z) : bool :=
  if is_dst u then negb (is_dst (u + MS_PER_HOUR))
  else is_dst (u - MS_PER_HOUR).

(** A dayjs object: its instant and the zone its clock fields are read
    in.  An object made by [tz] or [utc] carries a fixed offset; one made
    by a plain [dayjs()] reads the browser's zone. *)
Record t : Type := mk { valueOf : Z; zone : Zone }.

Definition utcOffset (d : t) : Z := zone d (valueOf d).
Definition localTs (d : t) : Z := valueOf d + utcOffset d * MS_PER_MINUTE.

Definition hour (d : t) : Z := hour_of (localTs d).
Definition minute (d : t) : Z := minute_of (localTs d).
Definition second (d : t) : Z := second_of (localTs d).

(** [dayjs(u)] in the browser whose zone is [host]. *)
Definition dayjs (host : Zone) (u : Z) : t := mk u host.

(** [d.tz(zone)] without the browser's part: the same instant, read at
    the zone's offset there.  It is the reference clock of a zone, and
    what the plug-in returns in a browser whose own clock does not
    change near the instant; [tzIn] below is the plug-in's computation
    in full. *)
Definition tz (d : t) (z : Zone) : t :=
  mk (valueOf d) (fixedZone (z (valueOf d))).

(** [d.utc()] *)
Definition utc (d : t) : t := mk (valueOf d) UTC.

Inductive TimeUnit : Type := Second | Minute | Hour.

Definition step (u : TimeUnit) : Z :=
  match u with
  | Second => MS_PER_SECOND
  | Minute => MS_PER_MINUTE
  | Hour => MS_PER_HOUR
  end.

(** [d.add(n, unit)] for the clock units: elapsed time is added to the
    timestamp. *)
Definition add (n : Z) (u : TimeUnit) (d : t) : t :=
  mk (valueOf d + n * step u) (zone d).

Definition isBefore (a b : t) : bool := valueOf a <? valueOf b.
Definition isAfter (a b : t) : bool := valueOf b <? valueOf a.

(** The plug-in's search for the instant of a local wall-clock value:
    [o0] is a first guess of the offset. *)
Definition fixOffset (localTS o0 : Z) (z : Zone) : Z * Z :=
  let utcGuess := localTS - o0 * MS_PER_MINUTE in
  let o2 := z utcGuess in
  if o0 =? o2 then (utcGuess, o0)
  else
    let utcGuess := utcGuess - (o2 - o0) * MS_PER_MINUTE in
    let o3 := z utcGuess in
    if o2 =? o3 then (utcGuess, o2)
    else (localTS - Z.min o2 o3 * MS_PER_MINUTE, Z.max o2 o3).

(** [date.getTimezoneOffset()] in the browser: minutes to add to local
    time to get UTC. *)
Definition getTimezoneOffset (host : Zone) (u : Z) : Z := - host u.

(** [Math.round(x / 15) * 15] on an integer [x]. *)
Definition round15 (x : Z) : Z := (2 * x + 15) / 30 * 15.

(** The instant of a wall-clock value in the browser's zone, as the
    engine computes it for the [Date] setters and for a date string
    without zone (ECMAScript, [UTC(t)]): a reading that occurs twice,
    or not at all, is taken at the offset in force before the clock
    change.  The offsets before and after are read a day earlier and a
    day later; a zone that changes its clock twice within two days is
    outside the model. *)
Definition UTC_of_local (host : Zone) (l : Z) : Z :=
  let before := host (l - MS_PER_DAY) in
  let after := host (l + MS_PER_DAY) in
  let u1 := l - before * MS_PER_MINUTE in
  let u2 := l - after * MS_PER_MINUTE in
  if host u1 =? before then u1
  else if host u2 =? after then u2
  else u1.

(** Setting clock fields of a browser-local object goes through the
    wall-clock value, which the engine turns back into an instant.
    Fields out of range carry over. *)
Definition fromLocal (d : t) (l : Z) : t :=
  mk (UTC_of_local (zone d) l) (zone d).

(** [d.startOf('day')] of a browser-local object
    ([setHours(0, 0, 0, 0)]). *)
Definition startOfDay (d : t) : t :=
  let l := localTs d in fromLocal d (l - l mod MS_PER_DAY).

(** Parsing [YYYY-MM-DD HH:mm] as a wall-clock value ([dayjs.utc(input)]
    on the way into [dayjs.tz]).  Only this shape, the one the sources
    document for their arguments, is modelled; any other string is an
    invalid date ([None]). *)
Definition parseLocal (input : string) : option Z :=
  match take_digits 4 0 input with
  | Some (y, s) =>
  match expect "-" s with
  | Some s =>
  match take_digits 2 0 s with
  | Some (m, s) =>
  match expect "-" s with
  | Some s =>
  match take_digits 2 0 s with
  | Some (d, s) =>
  match expect " " s with
  | Some s =>
  match take_digits 2 0 s with
  | Some (h, s) =>
  match expect ":" s with
  | Some s =>
  match take_digits 2 0 s with
  | Some (mi, EmptyString) => Some (Date_UTC y (m - 1) d h mi 0)
  | _ => None
  end | None => None end | None => None end | None => None end
  | None => None end | None => None end | None => None end
  | None => None end | None => None end.

Definition in_range (lo x hi : Z) : bool := (lo <=? x) && (x <=? hi).

(** Parsing an ISO timestamp [YYYY-MM-DDTHH:mm:ssZ] ([dayjs(string)] on a
    string that ends in [Z]).  Only this shape is modelled. *)
Definition parseIso (input : string) : option Z :=
  match take_digits 4 0 input with
  | Some (y, s) =>
  match expect "-" s with
  | Some s =>
  match take_digits 2 0 s with
  | Some (m, s) =>
  match expect "-" s with
  | Some s =>
  match take_digits 2 0 s with
  | Some (d, s) =>
  match expect "T" s with
  | Some s =>
  match take_digits 2 0 s with
  | Some (h, s) =>
  match expect ":" s with
  | Some s =>
  match take_digits 2 0 s with
  | Some (mi, s) =>
  match expect ":" s with
  | Some s =>
  match take_digits 2 0 s with
  | Some (sec, String "Z" EmptyString) =>
      if in_range 1 m 12 && in_range 1 d 31 && in_range 0 h 23
         && in_range 0 mi 59 && in_range 0 sec 59
      then Some ((days_from_civil y m d) * MS_PER_DAY + h * MS_PER_HOUR
                 + mi * MS_PER_MINUTE + sec * MS_PER_SECOND)
      else None
  | _ => None
  end | None => None end | None => None end | None => None end
  | None => None end | None => None end | None => None end
  | None => None end | None => None end | None => None end
  | None => None end.

(** An object made by [dayjs.tz(input, zone)]: either in UTC mode, or
    holding a [Date], an [$offset] and the [$x.$localOffset] that the
    utc plug-in records. *)
Inductive Zoned : Type :=
| UtcMode (date : Z)
| OffsetMode (date offset localOffset : Z).

(** [utcOffset(input)]: an input of at most 16 is taken as hours. *)
Definition hoursOrMinutes (input : Z) : Z :=
  if Z.abs input <=? 16 then input * 60 else input.

(** [valueOf] of the utc plug-in, in the browser whose zone is [host]:
    [$d - ($offset + ($x.$localOffset || $d.getTimezoneOffset())) * 60000];
    a recorded local offset of 0 is falsy. *)
Definition zonedValueOf (host : Zone) (o : Zoned) : Z :=
  match o with
  | UtcMode date => date
  | OffsetMode date offset localOffset =>
      let localOffset :=
        if localOffset =? 0 then getTimezoneOffset host date
        else localOffset in
      date - (offset + localOffset) * MS_PER_MINUTE
  end.

(** [o.add(n, unit)] for the clock units. *)
Definition zonedAdd (n : Z) (u : TimeUnit) (o : Zoned) : Zoned :=
  match o with
  | UtcMode date => UtcMode (date + n * step u)
  | OffsetMode date offset localOffset =>
      OffsetMode (date + n * step u) offset localOffset
  end.

(** [o.utc()]: a UTC object for the instant [o.valueOf()]. *)
Definition zonedUtc (host : Zone) (o : Zoned) : t :=
  mk (zonedValueOf host o) UTC.

(** [dayjs.tz(input, zone)] on a string, called when the clock reads
    [now] in the browser whose zone is [host].  The first guess of the
    offset is the zone's offset at the time of the call; the instant
    found, [targetTs], is then given the offset found
    ([dayjs(targetTs).utcOffset(targetOffset)]), which moves the
    object's [Date] by that offset and the browser's own. *)
Definition tz_parse (host : Zone) (now : Z) (input : string) (z : Zone)
  : option Zoned :=
  let previousOffset := z now in
  match parseLocal input with
  | Some localTs =>
      let '(targetTs, targetOffset) := fixOffset localTs previousOffset z in
      if targetOffset =? 0 then Some (UtcMode targetTs)
      else
        let offset := hoursOrMinutes targetOffset in
        let localTimezoneOffset :=
          round15 (getTimezoneOffset host targetTs) in
        Some (OffsetMode
                (targetTs + (offset + localTimezoneOffset) * MS_PER_MINUTE)
                offset localTimezoneOffset)
  | None => None
  end.

Definition INVALID_DATE : string := "Invalid Date".

Definition format_date (d : t) : string :=
  let c := date_of (localTs d) in
  pad 4 (year c) ++ "-" ++ pad 2 (month c) ++ "-" ++ pad 2 (day c).

Definition format_time (d : t) : string :=
  pad 2 (hour d) ++ ":" ++ pad 2 (minute d).

(** [format('YYYY-MM-DD')], [format('HH:mm')], [format('YYYY-MM-DD HH:mm')]
    and the default format of a UTC object, [YYYY-MM-DDTHH:mm:ss[Z]]. *)
Definition format_YYYY_MM_DD (d : option t) : string :=
  match d with Some d => format_date d | None => INVALID_DATE end.

Definition format_HH_mm (d : option t) : string :=
  match d with Some d => format_time d | None => INVALID_DATE end.

Definition format_YYYY_MM_DD_HH_mm (d : option t) : string :=
  match d with
  | Some d => format_date d ++ " " ++ format_time d
  | None => INVALID_DATE
  end.

Definition format_utc (d : option t) : string :=
  match d with
  | Some d =>
      let d := utc d in
      format_date d ++ "T" ++ format_time d ++ ":" ++ pad 2 (second d) ++ "Z"
  | None => INVALID_DATE
  end.

(** The ISO rendering of an instant. *)
Definition iso (u : Z) : string := format_utc (Some (mk u UTC)).

(** The span of wall-clock values and instants that the statements
    about formatting cover: from 2000-03-01 to the end of the year
    9999, the last with four digits. *)
Definition LOCAL_MIN : Z := 951868800000.
Definition LOCAL_MAX : Z := 253402300800000.

(** Instants from 2007-01-01T05:00:00Z, the start of 2007 in New York and
    of the daylight-time rule above, to the end of the year 9999. *)
Definition RULE_START : Z := 1167627600000.
Definition RULE_END : Z := 253402300800000.

(** [d.set('hour', h)], [d.minute(m)] / [d.set('minute', m)],
    [d.second(s)] and [d.millisecond(ms)]. *)
Definition set_hour (h : Z) (d : t) : t :=
  let l := localTs d in
  fromLocal d (l - hour_of l * MS_PER_HOUR + h * MS_PER_HOUR).

Definition set_minute (m : Z) (d : t) : t :=
  let l := localTs d in
  fromLocal d (l - minute_of l * MS_PER_MINUTE + m * MS_PER_MINUTE).

Definition set_second (s : Z) (d : t) : t :=
  let l := localTs d in
  fromLocal d (l - second_of l * MS_PER_SECOND + s * MS_PER_SECOND).

Definition set_millisecond (ms : Z) (d : t) : t :=
  let l := localTs d in
  fromLocal d (l - l mod MS_PER_SECOND + ms).

(** [date.setMinutes(m, s, ms)] of a JavaScript [Date]. *)
Definition setMinutes (m s ms : Z) (d : t) : t :=
  let l := localTs d in
  fromLocal d (l - l mod MS_PER_HOUR
               + m * MS_PER_MINUTE + s * MS_PER_SECOND + ms).

(** [date.setSeconds(s)] of a JavaScript [Date]. *)
Definition setSeconds (s : Z) (d : t) : t := set_second s d.

(** [d.add(n, 'day')]: the calendar day is moved, the wall clock kept. *)
Definition add_day (n : Z) (d : t) : t :=
  fromLocal d (localTs d + n * MS_PER_DAY).

(** [d.startOf('hour')] *)
Definition startOfHour (d : t) : t :=
  let l := localTs d in fromLocal d (l - l mod MS_PER_HOUR).

(** [a.diff(b, 'minute')]: whole minutes, rounded towards zero. *)
Definition diff_minute (a b : t) : Z :=
  Z.quot (valueOf a - valueOf b) MS_PER_MINUTE.

(** [Math.ceil(m / 5) * 5] and [Math.floor(m / 5) * 5] on an integer. *)
Definition ceil5 (m : Z) : Z := - ((- m) / 5) * 5.
Definition floor5 (m : Z) : Z := m / 5 * 5.

(** [format('YYYY-MM-DD HH:mm:ss')] *)
Definition format_YYYY_MM_DD_HH_mm_ss (d : t) : string :=
  format_date d ++ " " ++ format_time d ++ ":" ++ pad 2 (second d).

(** [d.tz(zone)] of the time-zone plug-in, for an object [d] of the
    browser whose zone is [host].  The instant is printed in the zone
    to the second ([toLocaleString]), the print is read back as a
    wall-clock value of the browser ([new Date(target)]), and the
    distance between the two instants, rounded to minutes, is taken
    off the browser's offset to give the new object's offset.  The new
    object keeps the [Date] read back, with the milliseconds of [d];
    its clock fields are that [Date]'s fields in the browser. *)
Definition tzIn (host : Zone) (d : t) (z : Zone) : t :=
  let u := valueOf d in
  let target := u - u mod MS_PER_SECOND + z u * MS_PER_MINUTE in
  let parsed := UTC_of_local host target in
  let diff := (u - parsed + 30000) / MS_PER_MINUTE in
  let offset := - round15 (getTimezoneOffset host u) - diff in
  if offset =? 0 then utc d
  else
    let ins := set_millisecond (u mod MS_PER_SECOND) (dayjs host parsed) in
    let offset := hoursOrMinutes offset in
    mk (valueOf ins
        - (offset + getTimezoneOffset host (valueOf ins)) * MS_PER_MINUTE)
       (fixedZone offset).

(** A browser whose zone, around the instant [u], is on a whole
    quarter-hour offset of at most 15 hours and does not change its
    clock within three days. *)
Definition steady (host : Zone) (u : Z) : Prop :=
  host u mod 15 = 0
  /\ -900 <= host u <= 900
  /\ forall v, u - 3 * MS_PER_DAY <= v <= u + 3 * MS_PER_DAY ->
               host v = host u.

End Dayjs.

(* ================================================================== *)
(** ** utils/timezone.ts *)
(* ================================================================== *)

(** Every function here that parses a wall-clock string reads the clock
    (through [dayjs.tz]); [now] is the instant of the call and [host] the
    zone of the browser it is made in. *)
Module Timezone.
Import Dayjs.
Local Open Scope string_scope.

(** PJM operates in Eastern Time. *)
Definition MARKET_TIMEZONE : Zone := America_New_York.

Definition edtToUtc (host : Zone) (now : Z) (dateStr timeStr : string)
  : string :=
  let edtDateTime :=
    tz_parse host now (dateStr ++ " " ++ timeStr) MARKET_TIMEZONE in
  format_utc (option_map (zonedUtc host) edtDateTime).

Record EdtParts : Type := mkEdtParts {
  date : string;
  time : string;
  datetime : string
}.

Definition utcToEdt (host : Zone) (utcTimestamp : string) : EdtParts :=
  let edtTime :=
    option_map (fun u => tzIn host (dayjs host u) MARKET_TIMEZONE)
               (parseIso utcTimestamp) in
  {| date := format_YYYY_MM_DD edtTime;
     time := format_HH_mm edtTime;
     datetime := format_YYYY_MM_DD_HH_mm edtTime |}.

(** [getCurrentEasternTime], as the reference clock of the market. *)
Definition getCurrentEasternTime (now : Z) : t :=
  tz (mk now UTC) MARKET_TIMEZONE.

(** Whether an instant lies before 11:00 on its Eastern civil day: the
    cutoff as the market-state contract words it, against which the
    front end's checks are compared. *)
Definition before_eastern_cutoff (now : Z) : bool :=
  (hour (getCurrentEasternTime now) <? 11)%Z.

Record RTTimeSlot : Type := mkRTTimeSlot {
  hourStartUtc : string;
  timeSlotUtc : string;
  intervalEndUtc : string
}.

Definition formatRTTimeSlot (host : Zone) (now : Z)
  (dateStr startTime : string) : RTTimeSlot :=
  let edtStart :=
    tz_parse host now (dateStr ++ " " ++ startTime) MARKET_TIMEZONE in
  let edtEnd := option_map (zonedAdd 5 Minute) edtStart in
  {| hourStartUtc := format_utc (option_map (zonedUtc host) edtStart);
     timeSlotUtc := format_utc (option_map (zonedUtc host) edtStart);
     intervalEndUtc := format_utc (option_map (zonedUtc host) edtEnd) |}.

Definition formatDAHour (host : Zone) (now : Z) (dateStr hour : string)
  : string :=
  let edtHour :=
    tz_parse host now (dateStr ++ " " ++ hour) MARKET_TIMEZONE in
  format_utc (option_map (zonedUtc host) edtHour).

End Timezone.

(* ================================================================== *)
(** ** The API client's order type and [marketUtils.validateOrderLimits] *)
(* ================================================================== *)

Inductive Market : Type := DayAhead | RealTime.
Inductive Side : Type := Buy | Sell.
Inductive Status : Type := Pending | Filled | Rejected.

Definition Market_eqb (a b : Market) : bool :=
  match a, b with
  | DayAhead, DayAhead | RealTime, RealTime => true
  | _, _ => false
  end.

Definition Status_eqb (a b : Status) : bool :=
  match a, b with
  | Pending, Pending | Filled, Filled | Rejected, Rejected => true
  | _, _ => false
  end.

(** [a === b] where [a] may be [undefined]. *)
Definition opt_string_eqb (a : option string) (b : string) : bool :=
  match a with
  | Some s => String.eqb s b
  | None => false
  end.

Module Api.

(** The [Order] interface; [time_slot] and [filled_price] are optional. *)
Record Order : Type := mkOrder {
  id : string;
  market : Market;
  user_id : string;
  node : string;
  hour_start : string;
  time_slot : option string;
  side : Side;
  limit_price : Q;
  quantity_mwh : Q;
  status : Status;
  filled_price : option Q
}.

Record OrderLimits : Type := mkOrderLimits {
  isValid : bool;
  currentCount : Z;
  maxCount : Z;
  remaining : Z
}.

Definition maxOrders (m : Market) : Z :=
  match m with DayAhead => 10 | RealTime => 50 end.

Definition inSlot (m : Market) (timeSlot : string) (o : Order) : bool :=
  match m with
  | DayAhead => Market_eqb (market o) DayAhead
                && String.eqb (hour_start o) timeSlot
  | RealTime => Market_eqb (market o) RealTime
                && opt_string_eqb (time_slot o) timeSlot
  end.

Definition validateOrderLimits (m : Market) (timeSlot : string)
  (existingOrders : list Order) : OrderLimits :=
  let maxOrders := maxOrders m in
  let slotOrders := filter (inSlot m timeSlot) existingOrders in
  let n := Z.of_nat (List.length slotOrders) in
  {| isValid := n <? maxOrders;
     currentCount := n;
     maxCount := maxOrders;
     remaining := maxOrders - n |}.

(** The orders of a list that are for market [m] and slot [slot], as a
    relation: the count the cap is about. *)
Definition for_slot (m : Market) (slot : string) (o : Order) : Prop :=
  market o = m
  /\ match m with
     | DayAhead => hour_start o = slot
     | RealTime => time_slot o = Some slot
     end.

Inductive slot_count (m : Market) (slot : string)
  : list Order -> Z -> Prop :=
| slot_count_nil : slot_count m slot [] 0
| slot_count_in o l n :
    for_slot m slot o -> slot_count m slot l n ->
    slot_count m slot (o :: l) (n + 1)
| slot_count_out o l n :
    ~ for_slot m slot o -> slot_count m slot l n ->
    slot_count m slot (o :: l) n.

(** [marketUtils.isDayAheadMarketOpen], called at instant [now] in a
    browser whose zone is [host]: [dayjs().hour() < 11]. *)
Definition isDayAheadMarketOpen (host : Dayjs.Zone) (now : Z) : bool :=
  let now := Dayjs.dayjs host now in
  Dayjs.hour now <? 11.

(** [marketUtils.isRealTimeMarketOpen] *)
Definition isRealTimeMarketOpen : bool := true.

(** [marketUtils.getNextTradingSlot] *)
Definition getNextTradingSlot (host : Dayjs.Zone) (now : Z) (m : Market)
  : Dayjs.t :=
  let now := Dayjs.dayjs host now in
  match m with
  | DayAhead =>
      if Dayjs.hour now <? 11
      then Dayjs.startOfHour (Dayjs.add 1 Dayjs.Hour now)
      else Dayjs.add 1 Dayjs.Hour
             (Dayjs.startOfDay (Dayjs.add_day 1 now))
  | RealTime =>
      let nextFiveMin := Dayjs.ceil5 (Dayjs.minute now) in
      Dayjs.set_millisecond 0
        (Dayjs.set_second 0 (Dayjs.set_minute nextFiveMin now))
  end.

(** [marketUtils.getTimeUntilCutoff] *)
Definition getTimeUntilCutoff (host : Dayjs.Zone) (now : Z) (m : Market)
  : Z :=
  match m with
  | DayAhead =>
      let now := Dayjs.dayjs host now in
      let cutoff :=
        Dayjs.set_second 0 (Dayjs.set_minute 0 (Dayjs.set_hour 11 now)) in
      if Dayjs.hour now >=? 11
      then Dayjs.diff_minute (Dayjs.add_day 1 cutoff) now
      else Dayjs.diff_minute cutoff now
  | RealTime => 0
  end.

End Api.

(* ================================================================== *)
(** ** EnhancedPJMDashboard.tsx: calculatePnL *)
(* ================================================================== *)

Module Dashboard.
Import JsNum Api.

(** An order spread together with its [pnl] field; [None] is [null]. *)
Record OrderWithPnl : Type := mkOrderWithPnl {
  order : Order;
  pnl : option number
}.

(** [rtPrices.reduce((sum, price) => sum + price, 0) / rtPrices.length] *)
Definition rtAverage (rtPrices : list Q) : number :=
  div (Num (fold_left (fun sum price => sum + price)%Q rtPrices 0%Q))
      (of_nat (List.length rtPrices)).

(** [order.filled_price || daPrice] *)
Definition fillPriceOf (o : Order) (daPrice : Q) : Q :=
  match filled_price o with
  | Some p => if truthy (Num p) then p else daPrice
  | None => daPrice
  end.

Definition pnlOfOrder (rtAvg : number) (daPrice : Q) (o : Order)
  : OrderWithPnl :=
  if negb (Status_eqb (status o) Filled) then mkOrderWithPnl o None
  else
    let fillPrice := Num (fillPriceOf o daPrice) in
    let pnl :=
      match side o with
      | Buy => mul (sub rtAvg fillPrice) (Num (quantity_mwh o))
      | Sell => mul (sub fillPrice rtAvg) (Num (quantity_mwh o))
      end in
    mkOrderWithPnl o (Some (div (round (mul pnl (Num 100))) (Num 100))).

Definition calculatePnL (orders : list Order) (daPrice : Q)
  (rtPrices : list Q) : list OrderWithPnl :=
  let rtAverage := rtAverage rtPrices in
  map (pnlOfOrder rtAverage daPrice) orders.

(** [isMarketOpen] and [getTimeUntilCutoff] of the dashboard module. *)
Definition isMarketOpen (host : Dayjs.Zone) (now : Z) : bool :=
  let now := Dayjs.dayjs host now in
  (Dayjs.hour now <? 11)%Z.

Definition getTimeUntilCutoff (host : Dayjs.Zone) (now : Z) : Z :=
  let now := Dayjs.dayjs host now in
  let cutoff :=
    Dayjs.set_second 0 (Dayjs.set_minute 0 (Dayjs.set_hour 11 now)) in
  if (Dayjs.hour now >=? 11)%Z
  then Dayjs.diff_minute (Dayjs.add_day 1 cutoff) now
  else Dayjs.diff_minute cutoff now.

End Dashboard.

(* ================================================================== *)
(** ** calculatePnL in double precision *)
(* ================================================================== *)

(** [calculatePnL] as it is executed: every number is a double and every
    operation rounds.  Prices and quantities are given in the notation in
    which they arrive (a decimal of the JSON response, a literal of the
    source) and enter the arithmetic as the doubles they denote. *)
Module Dashboard64.
Import Binary64 Api.

(** An order spread together with its [pnl] field; [None] is [null]. *)
Record OrderWithPnl : Type := mkOrderWithPnl {
  order : Order;
  pnl : option number
}.

(** [rtPrices.reduce((sum, price) => sum + price, 0)] *)
Definition sumPrices (rtPrices : list Q) : number :=
  fold_left (fun sum price => add sum (lit price)) rtPrices (of_Z 0).

(** [... / rtPrices.length] *)
Definition rtAverage (rtPrices : list Q) : number :=
  div (sumPrices rtPrices) (of_nat (List.length rtPrices)).

(** [order.filled_price || daPrice] *)
Definition fillPriceOf (o : Order) (daPrice : Q) : number :=
  match filled_price o with
  | Some p => if truthy (lit p) then lit p else lit daPrice
  | None => lit daPrice
  end.

Definition pnlOfOrder (rtAvg : number) (daPrice : Q) (o : Order)
  : OrderWithPnl :=
  if negb (Status_eqb (status o) Filled) then mkOrderWithPnl o None
  else
    let fillPrice := fillPriceOf o daPrice in
    let pnl :=
      match side o with
      | Buy => mul (sub rtAvg fillPrice) (lit (quantity_mwh o))
      | Sell => mul (sub fillPrice rtAvg) (lit (quantity_mwh o))
      end in
    mkOrderWithPnl o (Some (div (round (mul pnl (of_Z 100))) (of_Z 100))).

Definition calculatePnL (orders : list Order) (daPrice : Q)
  (rtPrices : list Q) : list OrderWithPnl :=
  let rtAverage := rtAverage rtPrices in
  map (pnlOfOrder rtAverage daPrice) orders.

(** The double nearest to the amount [x] rounded to whole cents, halves
    upwards. *)
Definition cents64 (x : Q) : number :=
  div (of_Z (Qfloor (x * 100 + (1 # 2)))) (of_Z 100).

(** The order with its fill price recorded as [p]. *)
Definition filled_at (p : Q) (o : Order) : Order :=
  mkOrder (id o) (market o) (user_id o) (node o) (hour_start o)
    (time_slot o) (side o) (limit_price o) (quantity_mwh o) (status o)
    (Some p).

End Dashboard64.

(* ================================================================== *)
(** ** Bucket-by-bucket settlement terms *)
(* ================================================================== *)

(** The quantities in which the P&L statements are phrased. *)
Module Settlement.
Local Open Scope Q_scope.

(** The sum of [f p] over the buckets [p] of a price list. *)
Definition sum_over (f : Q -> Q) (prices : list Q) : Q :=
  fold_right (fun p acc => f p + acc) 0 prices.


(** The price difference of one bucket in the orientation the code
    uses: a buy gains when real time settles above its fill price. *)
Definition bucket_difference (s : Side) (P_DA P_RT_t : Q) : Q :=
  match s with
  | Buy => P_RT_t - P_DA
  | Sell => P_DA - P_RT_t
  end.

(** The sum of the available buckets' differences, each weighted by
    [q / weight_buckets]. *)
Definition weighted_bucket_sum (s : Side) (P_DA q : Q)
  (weight_buckets : nat) (P_RT : list Q) : Q :=
  sum_over (fun P_RT_t =>
              bucket_difference s P_DA P_RT_t
              * (q / inject_Z (Z.of_nat weight_buckets))) P_RT.

(** Rounding to the nearest cent, halves upwards. *)
Definition cents (x : Q) : Q := inject_Z (Qfloor (x * 100 + (1 # 2))) / 100.

End Settlement.

(* ================================================================== *)
(** ** OrderManagement.tsx: the page's order store *)
(* ================================================================== *)

Module OrderManagement.

(** The page's own [Order] interface. *)
Record Order : Type := mkOrder {
  id : string;
  market : Market;
  hour : string;
  side : Side;
  quantity : Q;
  limitPrice : Q;
  status : Status;
  fillPrice : option Q;
  pnl : option Q;
  createdAt : string;
  node : string;
  timeSlot : option string
}.

(** [getMarketRules(market).maxOrdersPerSlot] *)
Definition maxOrdersPerSlot (m : Market) : Z :=
  match m with
  | DayAhead => 10
  | RealTime => 50
  end.

Definition getOrdersPerSlot (orders : list Order) (m : Market)
  (slot : string) : Z :=
  match m with
  | DayAhead =>
      Z.of_nat (List.length (filter (fun order =>
        Market_eqb (market order) DayAhead && String.eqb (hour order) slot)
        orders))
  | RealTime =>
      Z.of_nat (List.length (filter (fun order =>
        Market_eqb (market order) RealTime
        && opt_string_eqb (timeSlot order) slot) orders))
  end.

Definition isMarketOpen (host : Dayjs.Zone) (now : Z) (m : Market) : bool :=
  match m with
  | DayAhead => Dayjs.hour (Dayjs.dayjs host now) <? 11
  | RealTime => true
  end.

(** A string used as a condition: the empty string is falsy. *)
Definition nonEmpty (s : string) : bool :=
  match s with EmptyString => false | _ => true end.

(** The component state the submit handler reads. *)
Record PageState : Type := mkPageState {
  orders : list Order;
  selectedMarket : Market;
  selectedHour : string;
  selectedTimeSlot : string
}.

Definition currentSlotOrders (st : PageState) : Z :=
  match selectedMarket st with
  | DayAhead =>
      if nonEmpty (selectedHour st)
      then getOrdersPerSlot (orders st) (selectedMarket st) (selectedHour st)
      else 0
  | RealTime =>
      if nonEmpty (selectedTimeSlot st)
      then getOrdersPerSlot (orders st) (selectedMarket st)
             (selectedTimeSlot st)
      else 0
  end.

(** The first two guards of [handleSubmitOrder], in source order.
    [daOpen] is the value of [isMarketOpen('day-ahead')] at the call. *)
Inductive SubmitGuard : Type :=
| MarketClosedError
| SlotCapError (max : Z)
| GuardsPassed.

Definition handleSubmitOrder_guards (st : PageState) (daOpen : bool)
  : SubmitGuard :=
  if Market_eqb (selectedMarket st) DayAhead && negb daOpen
  then MarketClosedError
  else if currentSlotOrders st >=? maxOrdersPerSlot (selectedMarket st)
  then SlotCapError (maxOrdersPerSlot (selectedMarket st))
  else GuardsPassed.

(** [handleDeleteOrder], once the confirmation dialog is accepted:
    [setOrders(prev => prev.filter(order => order.id !== orderId))]. *)
Definition handleDeleteOrder (orderId : string) (prev : list Order)
  : list Order :=
  filter (fun order => negb (String.eqb (id order) orderId)) prev.

(** The actions column: [record.status === 'pending' && <delete icon>].
    The cell offers the delete handler for pending rows only. *)
Definition actionsColumn (record : Order)
  : option (list Order -> list Order) :=
  if Status_eqb (status record) Pending
  then Some (handleDeleteOrder (id record))
  else None.

(** Clicking in the actions cell of a row and confirming. *)
Definition clickDelete (record : Order) (store : list Order)
  : list Order :=
  match actionsColumn record with
  | Some onClick => onClick store
  | None => store
  end.

(** The strings the status and market fields hold. *)
Definition statusName (s : Status) : string :=
  match s with
  | Pending => "pending"
  | Filled => "filled"
  | Rejected => "rejected"
  end.

Definition marketName (m : Market) : string :=
  match m with
  | DayAhead => "day-ahead"
  | RealTime => "real-time"
  end.

(** [filteredOrders]: the table rows for the two filter selections. *)
Definition filteredOrders (orders : list Order)
  (filterStatus filterMarket : string) : list Order :=
  filter (fun order =>
            let statusMatch :=
              String.eqb filterStatus "all"
              || String.eqb (statusName (status order)) filterStatus in
            let marketMatch :=
              String.eqb filterMarket "all"
              || String.eqb (marketName (market order)) filterMarket in
            statusMatch && marketMatch) orders.

(** [orderSummary].  The rows hold their numbers in decimal notation;
    the two totals are sums of doubles, added from 0 in the order of the
    rows. *)
Record OrderSummary : Type := mkOrderSummary {
  total : Z;
  pending : Z;
  filled : Z;
  rejected : Z;
  totalPnL : Binary64.number;
  totalVolume : Binary64.number;
  dayAheadOrders : Z;
  realTimeOrders : Z
}.

Definition countWhere (p : Order -> bool) (orders : list Order) : Z :=
  Z.of_nat (List.length (filter p orders)).

(** [order.pnl || 0] *)
Definition pnlOrZero (o : Order) : Binary64.number :=
  match pnl o with
  | Some p => if Binary64.truthy (Binary64.lit p) then Binary64.lit p
              else Binary64.of_Z 0
  | None => Binary64.of_Z 0
  end.

Definition orderSummary (orders : list Order) : OrderSummary :=
  {| total := Z.of_nat (List.length orders);
     pending := countWhere (fun o => Status_eqb (status o) Pending) orders;
     filled := countWhere (fun o => Status_eqb (status o) Filled) orders;
     rejected := countWhere (fun o => Status_eqb (status o) Rejected) orders;
     totalPnL :=
       fold_left (fun sum order => Binary64.add sum (pnlOrZero order))
         orders (Binary64.of_Z 0);
     totalVolume :=
       fold_left (fun sum order =>
                    Binary64.add sum (Binary64.lit (quantity order)))
         orders (Binary64.of_Z 0);
     dayAheadOrders :=
       countWhere (fun o => Market_eqb (market o) DayAhead) orders;
     realTimeOrders :=
       countWhere (fun o => Market_eqb (market o) RealTime) orders |}.

(** One option of [generateRealTimeSlots]. *)
Record RealTimeSlot : Type := mkRealTimeSlot {
  label : string;
  value : string;
  disabled : bool;
  countdown : string;
  description : string;
  isNextSlot : bool;
  diffMs : Z
}.

Definition realTimeSlot (host : Dayjs.Zone) (now : Z) (i : Z)
  : RealTimeSlot :=
  let nowDate := Dayjs.dayjs host now in
  let currentMinutes := Dayjs.minute nowDate in
  let nextSlotMinutes := Dayjs.ceil5 currentMinutes in
  let slotTime := Dayjs.setMinutes (nextSlotMinutes + i * 5) 0 0 nowDate in
  let diffMs := Dayjs.valueOf slotTime - now in
  let diffMinutes := diffMs / 60000 in
  let diffSeconds := Z.rem diffMs 60000 / 1000 in
  let countdown :=
    (Text.pad 2 diffMinutes ++ ":" ++ Text.pad 2 diffSeconds)%string in
  let isLocked := diffMs <? 120000 in
  {| label := Dayjs.format_HH_mm (Some slotTime);
     value := Dayjs.format_HH_mm (Some slotTime);
     disabled := isLocked;
     countdown := countdown;
     description :=
       if i =? 0 then "Next slot"%string else ("In " ++ countdown)%string;
     isNextSlot := i =? 0;
     diffMs := diffMs |}.

(** [generateRealTimeSlots], called at [now] in a browser whose zone is
    [host]: the next 12 slots. *)
Definition generateRealTimeSlots (host : Dayjs.Zone) (now : Z)
  : list RealTimeSlot :=
  map (fun i => realTimeSlot host now (Z.of_nat i)) (seq 0 12).

(** The slot picked when the real-time market is selected:
    [realTimeSlots.find(slot => !slot.disabled)]. *)
Definition nextAvailableSlot (slots : list RealTimeSlot)
  : option RealTimeSlot :=
  find (fun slot => negb (disabled slot)) slots.

(** The mock position record and the form values of a submission. *)
Record Position : Type := mkPosition {
  current_net_position : Q;
  projected_net_position : Q;
  buy_volume : Q;
  sell_volume : Q
}.

Record SubmitValues : Type := mkSubmitValues {
  v_hour : string;
  v_timeSlot : option string;
  v_side : Side;
  v_quantity : Q;
  v_limitPrice : Q
}.

Inductive SubmitOutcome : Type :=
| SubmitMarketClosed
| SubmitSlotCap (max : Z)
| SubmitCannotSell (quantity maxSellable : Q)
| Submitted (store : list Order).

(** [`ORD-${String(orders.length + 1).padStart(3, '0')}`] *)
Definition newOrderId (orders : list Order) : string :=
  ("ORD-" ++ Text.pad 3 (Z.of_nat (List.length orders) + 1))%string.

(** [values.timeSlot?.split(':')[0] + ':00'] *)
Definition hourOfTimeSlot (timeSlot : option string) : string :=
  match timeSlot with
  | Some s => (hd EmptyString (Text.split ":" s) ++ ":00")%string
  | None => "undefined:00"%string
  end.

(** [handleSubmitOrder].  [now] is the instant of the submission and
    [st] the state its closure sees; the order is added 800 ms later, at
    [later], to the store [prev] found then. *)
Definition handleSubmitOrder (host : Dayjs.Zone) (now later : Z)
  (st : PageState) (currentPosition : option Position)
  (values : SubmitValues) (prev : list Order) : SubmitOutcome :=
  match handleSubmitOrder_guards st (isMarketOpen host now DayAhead) with
  | MarketClosedError => SubmitMarketClosed
  | SlotCapError max => SubmitSlotCap max
  | GuardsPassed =>
      let maxSellable :=
        match currentPosition with
        | Some p => if Qle_bool 0 (projected_net_position p)
                    then projected_net_position p else 0%Q
        | None => 0%Q
        end in
      let cannotSell :=
        match v_side values, currentPosition with
        | Sell, Some _ => negb (Qle_bool (v_quantity values) maxSellable)
        | _, _ => false
        end in
      if cannotSell then SubmitCannotSell (v_quantity values) maxSellable
      else
        let newOrder :=
          {| id := newOrderId (orders st);
             market := selectedMarket st;
             hour := match selectedMarket st with
                     | DayAhead => v_hour values
                     | RealTime => hourOfTimeSlot (v_timeSlot values)
                     end;
             side := v_side values;
             quantity := v_quantity values;
             limitPrice := v_limitPrice values;
             status := Pending;
             fillPrice := None;
             pnl := None;
             createdAt :=
               Dayjs.format_YYYY_MM_DD_HH_mm_ss (Dayjs.dayjs host later);
             node := "PJM_RTO";
             timeSlot := match selectedMarket st with
                         | DayAhead => None
                         | RealTime => v_timeSlot values
                         end |} in
        Submitted (newOrder :: prev)
  end.

End OrderManagement.

(* ================================================================== *)
(** ** The API-backed order page: market hours and order creation *)
(* ================================================================== *)

Module OrderPage.
Import Dayjs.

Definition isDATradingOpen (host : Zone) (now : Z) : bool :=
  let now := dayjs host now in
  let cutoff := add 11 Hour (startOfDay now) in
  isBefore now cutoff.

Definition isRTMarketOpen : bool := true.

Record FormValues : Type := mkFormValues {
  hour : string;
  timeSlot : string;
  side : Side;
  limitPrice : Q;
  quantity : Q
}.

(** The request body built by [handleCreateOrder]. *)
Record OrderData : Type := mkOrderData {
  hour_start : string;
  node : string;
  market : Market;
  o_side : Side;
  order_type : string;
  limit_price : Q;
  quantity_mwh : Q;
  time_in_force : string;
  time_slot : option string
}.

(** [handleCreateOrder] up to the request body.  [todayDate] is the
    page's locked date object, [now] the instant of the call and
    [host] the browser's zone.  An
    interval without a second part makes [intervalParts[1].trim()] throw,
    and no request is built ([None]). *)
Definition handleCreateOrder (host : Zone) (now : Z) (todayDate : t)
  (selectedNode : string) (selectedMarket : Market) (values : FormValues)
  : option OrderData :=
  let todayStr := format_YYYY_MM_DD (Some todayDate) in
  let build hourStartUtc timeSlotUtc :=
    {| hour_start := hourStartUtc;
       node := selectedNode;
       market := selectedMarket;
       o_side := side values;
       order_type := "LMT";
       limit_price := limitPrice values;
       quantity_mwh := quantity values;
       time_in_force := "GTC";
       time_slot := timeSlotUtc |} in
  match selectedMarket with
  | DayAhead =>
      Some (build (Timezone.formatDAHour host now todayStr (hour values))
              None)
  | RealTime =>
      match Text.split "-" (timeSlot values) with
      | part0 :: part1 :: _ =>
          let startTime := Text.trim part0 in
          let rtSlot :=
            Timezone.formatRTTimeSlot host now todayStr startTime in
          Some (build (Timezone.hourStartUtc rtSlot)
                      (Some (Timezone.timeSlotUtc rtSlot)))
      | _ => None
      end
  end.

(** [getSettlementPriceFallback]: by the browser's hour of the order's
    start; a start that does not parse has no hour and falls in the last
    branch. *)
Definition getSettlementPriceFallback (host : Zone) (hourStart : string)
  : Q :=
  match parseIso hourStart with
  | Some u =>
      let timeHour := Dayjs.hour (dayjs host u) in
      if (18 <=? timeHour) && (timeHour <=? 20) then (4226 # 100)%Q
      else if (14 <=? timeHour) && (timeHour <=? 17) then (4185 # 100)%Q
      else (4150 # 100)%Q
  | None => (4150 # 100)%Q
  end.

(** [calculateRealPnL]; [marketPrice] is the order object's optional
    settlement price. *)
Definition calculateRealPnL (host : Zone) (order : Api.Order)
  (marketPrice : option Q) : JsNum.number :=
  let hasFill :=
    match Api.filled_price order with
    | Some p => JsNum.truthy (JsNum.Num p)
    | None => false
    end in
  if negb hasFill || negb (Status_eqb (Api.status order) Filled)
  then JsNum.Num 0
  else
    let fillPrice :=
      JsNum.Num (match Api.filled_price order with
                 | Some p => p
                 | None => 0%Q
                 end) in
    let quantity := JsNum.Num (Api.quantity_mwh order) in
    let settlementPrice :=
      JsNum.Num
        (match marketPrice with
         | Some p => if JsNum.truthy (JsNum.Num p) then p
                     else getSettlementPriceFallback host
                            (Api.hour_start order)
         | None => getSettlementPriceFallback host (Api.hour_start order)
         end) in
    let pnl :=
      match Api.side order with
      | Buy => JsNum.mul (JsNum.sub settlementPrice fillPrice) quantity
      | Sell => JsNum.mul (JsNum.sub fillPrice settlementPrice) quantity
      end in
    JsNum.div (JsNum.round (JsNum.mul pnl (JsNum.Num 100))) (JsNum.Num 100).

(** One option of a select box. *)
Record HourOption : Type := mkHourOption {
  opt_value : string;
  opt_label : string;
  opt_disabled : bool
}.

(** [getDayAheadHours] *)
Definition getDayAheadHours : list HourOption :=
  map (fun i =>
         let hourStr := (Text.pad 2 (Z.of_nat i) ++ ":00")%string in
         {| opt_value := hourStr; opt_label := hourStr;
            opt_disabled := false |})
      (seq 0 24).

(** One option of [getNextRTSlots]; the label markup is left out. *)
Record RTSlotOption : Type := mkRTSlotOption {
  slot_value : string;
  slot_disabled : bool;
  intervalStart : Z;
  intervalEnd : Z;
  settlementTime : Z
}.

Definition rtSlotOption (host : Zone) (now : Z) (i : Z) : RTSlotOption :=
  let nowDate := dayjs host now in
  let currentMinute := Dayjs.minute nowDate in
  let currentIntervalStart := floor5 currentMinute in
  let intervalStart := setMinutes (currentIntervalStart + i * 5) 0 0 nowDate in
  let intervalEnd :=
    set_minute (Dayjs.minute intervalStart + 5) intervalStart in
  let settlementTime := setSeconds 30 intervalEnd in
  let timeStr := format_HH_mm (Some intervalStart) in
  let endTimeStr := format_HH_mm (Some intervalEnd) in
  {| slot_value := (timeStr ++ "-" ++ endTimeStr)%string;
     slot_disabled := false;
     intervalStart := valueOf intervalStart;
     intervalEnd := valueOf intervalEnd;
     settlementTime := valueOf settlementTime |}.

(** [getNextRTSlots]: twelve intervals, starting with the current one
    unless it ends in less than 30 seconds. *)
Definition getNextRTSlots (host : Zone) (now : Z) : list RTSlotOption :=
  let nowDate := dayjs host now in
  let currentMinute := Dayjs.minute nowDate in
  let currentIntervalStart := floor5 currentMinute in
  let currentIntervalEnd := currentIntervalStart + 5 in
  let minutesUntilCurrentEnd := currentIntervalEnd - currentMinute in
  let secondsUntilCurrentEnd :=
    minutesUntilCurrentEnd * 60 - Dayjs.second nowDate in
  let startFromInterval := if secondsUntilCurrentEnd <? 30 then 1 else 0 in
  map (fun i => rtSlotOption host now (startFromInterval + Z.of_nat i))
      (seq 0 12).

(** [calculateTodaysPnL] over the page's rows: a sum of doubles, added
    from 0 in the order of the filled rows. *)
Definition calculateTodaysPnL (orders : list OrderManagement.Order)
  : Binary64.number :=
  let filledOrders :=
    filter (fun o => Status_eqb (OrderManagement.status o) Filled) orders in
  fold_left (fun total order =>
               Binary64.add total (OrderManagement.pnlOrZero order))
    filledOrders (Binary64.of_Z 0).

End OrderPage.

(* ================================================================== *)
(** ** Matching rule of the back end *)
(* ================================================================== *)

Module Engine.

Inductive OrderType : Type :=
| MarketOrder
| LimitOrder (limit_price : Q).

Inductive EngineStatus : Type :=
| EPending | EFilled | ERejected | ECancelled.

Inductive Reason : Type := LimitNotMet.

Record EngineOrder : Type := mkEngineOrder {
  order_id : string;
  e_market : Market;
  e_side : Side;
  order_type : OrderType;
  e_quantity_mwh : Q;
  e_status : EngineStatus;
  e_filled_price : option Q
}.

Inductive Decision : Type :=
| Fill (filled_price filled_quantity : Q)
| Reject (reason : Reason).

(** Modelled from the spec: the per-order decision of the matching
    engine (section 4.3, step 2), whose implementation is on the server
    and not part of the front-end sources.  A market order always fills
    at the reference price; a limit buy fills iff
    [reference_price <= limit_price]; a limit sell fills iff
    [reference_price >= limit_price]; otherwise the order is rejected
    with reason [LimitNotMet]. *)
Definition decide (o : EngineOrder) (reference_price : Q) : Decision :=
  match order_type o with
  | MarketOrder => Fill reference_price (e_quantity_mwh o)
  | LimitOrder limit_price =>
      match e_side o with
      | Buy => if Qle_bool reference_price limit_price
               then Fill reference_price (e_quantity_mwh o)
               else Reject LimitNotMet
      | Sell => if Qle_bool limit_price reference_price
                then Fill reference_price (e_quantity_mwh o)
                else Reject LimitNotMet
      end
  end.

(** Modelled from the spec: step 3 of section 4.3, the order's status
    and filled price after its decision is recorded. *)
Definition apply_decision (o : EngineOrder) (d : Decision) : EngineOrder :=
  match d with
  | Fill p _ =>
      mkEngineOrder (order_id o) (e_market o) (e_side o) (order_type o)
        (e_quantity_mwh o) EFilled (Some p)
  | Reject _ =>
      mkEngineOrder (order_id o) (e_market o) (e_side o) (order_type o)
        (e_quantity_mwh o) ERejected None
  end.

(** Modelled from the spec: [match] over the eligible (pending) orders
    of one tick, each evaluated independently against the same
    reference price, in the order given. *)
Definition match_tick (eligible : list EngineOrder) (reference_price : Q)
  : list (EngineOrder * Decision) :=
  map (fun o => let d := decide o reference_price in (apply_decision o d, d))
      eligible.

End Engine.

(* ================================================================== *)
(** ** Sample data *)
(* ================================================================== *)

Module Samples.
Local Open Scope string_scope.
Local Open Scope Q_scope.

(** The order of the documented settlement example: a day-ahead buy of
    2.5 MWh filled at 48.00. *)
Definition documented_buy : Api.Order :=
  Api.mkOrder "ORDER_123" DayAhead "demo_user" "PJM_RTO"
    "2025-08-15T14:00:00Z" None Buy 50 (5 # 2) Filled (Some 48).

(** Twelve real-time prices averaging 52.30. *)
Definition prices_avg_52_30 : list Q :=
  [503 # 10; 543 # 10; 513 # 10; 533 # 10; 523 # 10; 523 # 10;
   518 # 10; 528 # 10; 523 # 10; 523 # 10; 520 # 10; 526 # 10].


Definition eight_buckets : list Q := repeat 50 8.

(** Two day-ahead orders for the 14:00 hour and one real-time order. *)
Definition pending_da (ident : string) : Api.Order :=
  Api.mkOrder ident DayAhead "demo_user" "PJM_RTO"
    "2025-08-15T14:00:00Z" None Buy 50 1 Pending None.

Definition pending_rt : Api.Order :=
  Api.mkOrder "ORDER_3" RealTime "demo_user" "PJM_RTO"
    "2025-08-15T14:00:00Z" (Some "2025-08-15T14:05:00Z") Sell 50 1
    Pending None.

Definition three_orders : list Api.Order :=
  [pending_da "ORDER_1"; pending_rt; pending_da "ORDER_2"].

(** Rows of the page's order table. *)
Definition pending_row : OrderManagement.Order :=
  OrderManagement.mkOrder "ORD-003" RealTime "14:00" Buy (3 # 2) 52
    Pending None None "2025-08-16 13:40:00" "PJM_RTO" (Some "14:05").

Definition filled_row : OrderManagement.Order :=
  OrderManagement.mkOrder "ORD-001" DayAhead "09:00" Buy (5 # 2) (97 # 2)
    Filled (Some (189 # 4)) (Some (625 # 2)) "2025-08-16 07:00:00"
    "PJM_RTO" None.

Definition two_rows : list OrderManagement.Order :=
  [filled_row; pending_row].

(** The limit sell of the documented rejection example, and a limit buy. *)
Definition sell_limit_55 : Engine.EngineOrder :=
  Engine.mkEngineOrder "ORDER_55" DayAhead Sell (Engine.LimitOrder 55) 3
    Engine.EPending None.

Definition buy_limit_50 : Engine.EngineOrder :=
  Engine.mkEngineOrder "ORDER_50" RealTime Buy (Engine.LimitOrder 50)
    (5 # 2) Engine.EPending None.

(** Instants: 2025-08-16T14:30:00Z (10:30 in New York),
    2025-03-09T15:30:00Z (11:30 in New York, on the day the clocks go
    forward), 2025-08-16T05:05:00Z, and the two instants that read
    01:30 in New York on 2025-11-02. *)
Definition summer_morning : Z := 1755354600000.
Definition spring_forward_1130 : Z := 1741534200000.
Definition summer_night : Z := 1755320700000.
Definition first_0130 : Z := 1762061400000.
Definition second_0130 : Z := 1762065000000.

(** A filled sell of 2.5 MWh whose fill price is recorded as 0. *)
Definition sell_zero_fill : Api.Order :=
  Api.mkOrder "ORDER_125" DayAhead "demo_user" "PJM_RTO"
    "2025-08-15T16:00:00Z" None Sell 50 (5 # 2) Filled (Some 0).

(** The documented buy as a sell: same fill price and quantity. *)
Definition documented_sell : Api.Order :=
  Api.mkOrder "ORDER_126" DayAhead "demo_user" "PJM_RTO"
    "2025-08-15T14:00:00Z" None Sell 50 (5 # 2) Filled (Some 48).

(** The orders of [three_orders] after matching: same slots, other
    statuses. *)
Definition three_orders_matched : list Api.Order :=
  [Api.mkOrder "ORDER_1" DayAhead "demo_user" "PJM_RTO"
     "2025-08-15T14:00:00Z" None Buy 50 1 Filled (Some 49);
   Api.mkOrder "ORDER_3" RealTime "demo_user" "PJM_RTO"
     "2025-08-15T14:00:00Z" (Some "2025-08-15T14:05:00Z") Sell 50 1
     Rejected None;
   Api.mkOrder "ORDER_2" DayAhead "demo_user" "PJM_RTO"
     "2025-08-15T14:00:00Z" None Buy 50 1 Rejected None].

(** A page state with the 14:00 hour selected, and form values for a
    day-ahead sell of 1 MWh in that hour; a position of 3 MWh. *)
Definition page_two_rows : OrderManagement.PageState :=
  OrderManagement.mkPageState two_rows DayAhead "14:00" "".

Definition sell_values : OrderManagement.SubmitValues :=
  OrderManagement.mkSubmitValues "14:00" None Sell 1 51.

Definition long_position : OrderManagement.Position :=
  OrderManagement.mkPosition 3 3 5 2.

(** 2025-08-16T09:00:00Z, 05:00 in New York. *)
Definition early_morning : Z := 1755334800000.



End Samples.

(* ================================================================== *)
(** * Properties *)
(* ================================================================== *)

Ltac div_mod_lia := Z.div_mod_to_equations; lia.

Ltac clock_unfold :=
  unfold Civil.hour_of, Civil.minute_of, Civil.second_of, Civil.MS_PER_DAY,
    Civil.MS_PER_HOUR, Civil.MS_PER_MINUTE, Civil.MS_PER_SECOND in *.

(* ================================================================== *)
(** ** P&L of filled orders *)
(* ================================================================== *)

Section PnL.
Import JsNum Api Dashboard Settlement Samples.
Local Open Scope Q_scope.

Lemma fold_left_sum_over (l : list Q) (a : Q) :
  fold_left (fun sum price => sum + price) l a == a + sum_over (fun p => p) l.
Proof.
  revert a; induction l as [|x l IH]; intros a; simpl.
  - ring.
  - rewrite IH. ring.
Qed.

Lemma inject_length_cons (x : Q) (l : list Q) :
  inject_Z (Z.of_nat (List.length (x :: l)))
  == inject_Z (Z.of_nat (List.length l)) + 1.
Proof.
  simpl List.length. rewrite Nat2Z.inj_succ, <- Z.add_1_r.
  rewrite inject_Z_plus. reflexivity.
Qed.

Lemma sum_over_difference (s : Side) (P c : Q) (l : list Q) :
  sum_over (fun p => bucket_difference s P p * c) l
  == bucket_difference s (inject_Z (Z.of_nat (List.length l)) * P)
       (sum_over (fun p => p) l) * c.
Proof.
  induction l as [|x l IH].
  - destruct s; simpl; ring.
  - change (sum_over (fun p => bucket_difference s P p * c) (x :: l))
      with (bucket_difference s P x * c
            + sum_over (fun p => bucket_difference s P p * c) l).
    change (sum_over (fun p => p) (x :: l))
      with (x + sum_over (fun p => p) l).
    rewrite IH. clear IH.
    destruct s; unfold bucket_difference;
      rewrite (inject_length_cons x l); ring.
Qed.

Lemma length_pos_inject (l : list Q) :
  l <> [] -> ~ inject_Z (Z.of_nat (List.length l)) == 0.
Proof.
  intros Hne Heq. destruct l as [|x l]; [congruence|].
  unfold Qeq in Heq. simpl in Heq. lia.
Qed.

Lemma rtAverage_nonempty (rtPrices : list Q) :
  rtPrices <> [] ->
  rtAverage rtPrices
  = Num (fold_left (fun sum price => sum + price) rtPrices 0
         / inject_Z (Z.of_nat (List.length rtPrices))).
Proof.
  intros Hne. unfold rtAverage, of_nat, div.
  destruct (Qeq_bool _ 0) eqn:E; [|reflexivity].
  apply Qeq_bool_eq in E. now apply length_pos_inject in E.
Qed.

(** Over an empty array [reduce] returns its initial value, and the
    average is [0 / 0]. *)
Lemma rtAverage_empty : rtAverage [] = div (Num 0) (Num 0) /\ rtAverage [] = NaN.
Proof. split; reflexivity. Qed.

Lemma pnlOfOrder_filled (a daPrice : Q) (o : Order) :
  status o = Filled ->
  pnlOfOrder (Num a) daPrice o
  = mkOrderWithPnl o
      (Some (Num (cents (bucket_difference (side o) (fillPriceOf o daPrice) a
                         * quantity_mwh o)))).
Proof.
  intros Hs. unfold pnlOfOrder. rewrite Hs. simpl.
  destruct (side o); reflexivity.
Qed.

Lemma pnlOfOrder_not_filled (a : number) (daPrice : Q) (o : Order) :
  status o <> Filled -> pnlOfOrder a daPrice o = mkOrderWithPnl o None.
Proof.
  intros Hs. unfold pnlOfOrder. destruct (status o); try reflexivity.
  congruence.
Qed.

Lemma cents_comp (x y : Q) : x == y -> cents x == cents y.
Proof. intros H. unfold cents. rewrite H. reflexivity. Qed.

Lemma fillPriceOf_some (o : Order) (daPrice P : Q) :
  filled_price o = Some P -> ~ P == 0 -> fillPriceOf o daPrice = P.
Proof.
  intros Hf Hz. unfold fillPriceOf. rewrite Hf. simpl.
  destruct (Qeq_bool P 0) eqn:E; [|reflexivity].
  apply Qeq_bool_eq in E. contradiction.
Qed.

(** The value the code derives from the average is the sum of the
    available buckets' differences, each weighted by the quantity
    divided by the number of available buckets. *)
Lemma average_is_weighted_sum (s : Side) (P q : Q) (rtPrices : list Q) :
  rtPrices <> [] ->
  bucket_difference s P
    (fold_left (fun sum price => sum + price) rtPrices 0
     / inject_Z (Z.of_nat (List.length rtPrices))) * q
  == weighted_bucket_sum s P q (List.length rtPrices) rtPrices.
Proof.
  intros Hne. pose proof (length_pos_inject rtPrices Hne) as Hn.
  unfold weighted_bucket_sum.
  rewrite sum_over_difference.
  destruct s; unfold bucket_difference;
    rewrite fold_left_sum_over; field; exact Hn.
Qed.

Lemma calculatePnL_filled (orders : list Order) (daPrice : Q)
  (rtPrices : list Q) (i : nat) (o : Order) :
  nth_error orders i = Some o ->
  status o = Filled ->
  rtPrices <> [] ->
  exists r,
    nth_error (calculatePnL orders daPrice rtPrices) i
    = Some (mkOrderWithPnl o (Some (Num r)))
    /\ r == cents (weighted_bucket_sum (side o) (fillPriceOf o daPrice)
                     (quantity_mwh o) (List.length rtPrices) rtPrices).
Proof.
  intros Hi Hs Hne. unfold calculatePnL.
  rewrite (map_nth_error _ _ _ Hi), (rtAverage_nonempty _ Hne).
  rewrite (pnlOfOrder_filled _ _ _ Hs).
  eexists. split; [reflexivity|].
  apply cents_comp, average_is_weighted_sum, Hne.
Qed.





(** Claim C10.  The division by the number of prices is unguarded: on an
    empty price list the average is [0 / 0] and every filled order's
    P&L is NaN, not 0; on a non-empty list it is a finite number. *)
Theorem calculatePnL_needs_prices (orders : list Order) (daPrice : Q)
  (rtPrices : list Q) (i : nat) (o : Order) :
  nth_error orders i = Some o ->
  status o = Filled ->
  (rtPrices = [] ->
   rtAverage rtPrices = div (Num 0) (Num 0)
   /\ nth_error (calculatePnL orders daPrice rtPrices) i
      = Some (mkOrderWithPnl o (Some NaN))
   /\ Some NaN <> Some (Num 0))
  /\ (rtPrices <> [] ->
      exists value,
        nth_error (calculatePnL orders daPrice rtPrices) i
        = Some (mkOrderWithPnl o (Some (Num value)))).
Proof.
  intros Hi Hs. split.
  - intros ->. split; [reflexivity|]. split; [|discriminate].
    unfold calculatePnL. rewrite (map_nth_error _ _ _ Hi).
    unfold pnlOfOrder. rewrite Hs. simpl.
    destruct (side o); reflexivity.
  - intros Hne.
    destruct (calculatePnL_filled orders daPrice rtPrices i o Hi Hs Hne)
      as (r & Hr & _).
    exists r. exact Hr.
Qed.

Lemma calculatePnL_needs_prices_witness :
  nth_error (calculatePnL [documented_buy] 0 []) 0
  = Some (mkOrderWithPnl documented_buy (Some NaN)).
Proof.
  apply (calculatePnL_needs_prices [documented_buy] 0 [] 0%nat documented_buy);
    reflexivity.
Defined.

End PnL.


(* ================================================================== *)
(** ** P&L of filled orders in double precision *)
(* ================================================================== *)

Section PnL64.
Import Binary64 Api Dashboard64 Settlement Samples.
Local Open Scope Q_scope.

Lemma calculatePnL_nth (orders : list Order) (daPrice : Q)
  (rtPrices : list Q) (i : nat) (o : Order) :
  nth_error orders i = Some o ->
  nth_error (calculatePnL orders daPrice rtPrices) i
  = Some (pnlOfOrder (rtAverage rtPrices) daPrice o).
Proof. intros Hi. unfold calculatePnL. apply map_nth_error, Hi. Qed.


Lemma of_Z_100 : of_Z 100 = S754_finite false 7036874417766400 (-46).
Proof. vm_compute. reflexivity. Qed.

Lemma of_Z_nonzero (k : Z) (s : bool) :
  k <> 0%Z -> binary_normalize prec emax k 0 s = of_Z k.
Proof. intros Hk. unfold of_Z. destruct k; [congruence | reflexivity ..]. Qed.



(** What [calculatePnL] computes for a filled order, step by step. *)
Lemma calculatePnL_filled64 (orders : list Order) (daPrice : Q)
  (rtPrices : list Q) (i : nat) (o : Order) :
  nth_error orders i = Some o ->
  status o = Filled ->
  let difference :=
    match side o with
    | Buy => sub (rtAverage rtPrices) (fillPriceOf o daPrice)
    | Sell => sub (fillPriceOf o daPrice) (rtAverage rtPrices)
    end in
  let scaled := mul (mul difference (lit (quantity_mwh o))) (of_Z 100) in
  nth_error (calculatePnL orders daPrice rtPrices) i
  = Some (mkOrderWithPnl o (Some (div (round scaled) (of_Z 100)))).
Proof.
  intros Hi Hs. cbv zeta. rewrite (calculatePnL_nth _ _ _ _ _ Hi).
  unfold pnlOfOrder. rewrite Hs. cbn [Status_eqb negb].
  destruct (side o); reflexivity.
Qed.







(** The documented buy over its twelve buckets gives 10.75 in doubles
    too.  A sell of 2.5 MWh filled at 48.00 against buckets at 41.85
    (one or twelve of them) gives 15.37, although the amount over the
    rationals, 15.375, rounds to 15.38: the product handed to
    [Math.round] is a little below 1537.5. *)
Lemma calculatePnL_double_examples :
  calculatePnL [documented_buy] 0 prices_avg_52_30
  = [mkOrderWithPnl documented_buy (Some (lit (1075 # 100)))]
  /\ calculatePnL [documented_sell] 0 [4185 # 100]
     = [mkOrderWithPnl documented_sell (Some (lit (1537 # 100)))]
  /\ calculatePnL [documented_sell] 0 (repeat (4185 # 100) 12)
     = [mkOrderWithPnl documented_sell (Some (lit (1537 # 100)))]
  /\ cents64 (weighted_bucket_sum Sell 48 (5 # 2) 1 [4185 # 100])
     = lit (1538 # 100)
  /\ lit (1537 # 100) <> lit (1538 # 100).
Proof.
  repeat match goal with |- _ /\ _ => split end;
    try (vm_compute; reflexivity).
  vm_compute. discriminate.
Qed.

(** Over an empty price list the average is [0 / 0], and every filled
    order's P&L is [NaN] in doubles as well. *)
Lemma calculatePnL_empty_prices64 (orders : list Order) (daPrice : Q)
  (i : nat) (o : Order) :
  nth_error orders i = Some o ->
  status o = Filled ->
  nth_error (calculatePnL orders daPrice []) i
  = Some (mkOrderWithPnl o (Some NaN)).
Proof.
  intros Hi Hs.
  rewrite (calculatePnL_filled64 orders daPrice [] i o Hi Hs).
  change (rtAverage []) with NaN.
  destruct (side o); destruct (fillPriceOf o daPrice);
    destruct (lit (quantity_mwh o)); reflexivity.
Qed.

Lemma fillPriceOf_falsy (o : Order) (daPrice : Q) :
  filled_price o = None
  \/ (exists p, filled_price o = Some p /\ truthy (lit p) = false) ->
  fillPriceOf o daPrice = lit daPrice.
Proof.
  unfold fillPriceOf. intros [-> | (p & -> & ->)]; reflexivity.
Qed.

Lemma fillPriceOf_filled_at (o : Order) (daPrice : Q) :
  fillPriceOf (filled_at daPrice o) daPrice = lit daPrice.
Proof.
  unfold fillPriceOf, filled_at. cbn [filled_price].
  destruct (truthy (lit daPrice)); reflexivity.
Qed.

(** A filled order whose fill price is missing, or is recorded as a
    falsy number (0), gets the P&L of the same order filled at
    [daPrice]. *)
Theorem calculatePnL_fill_price_fallback (orders : list Order)
  (daPrice : Q) (rtPrices : list Q) (i : nat) (o : Order) :
  nth_error orders i = Some o ->
  status o = Filled ->
  filled_price o = None
  \/ (exists p, filled_price o = Some p /\ truthy (lit p) = false) ->
  exists v,
    nth_error (calculatePnL orders daPrice rtPrices) i
    = Some (mkOrderWithPnl o v)
    /\ calculatePnL [filled_at daPrice o] daPrice rtPrices
       = [mkOrderWithPnl (filled_at daPrice o) v].
Proof.
  intros Hi Hs Hf.
  rewrite (calculatePnL_nth _ _ _ _ _ Hi).
  unfold calculatePnL. cbn [map]. unfold pnlOfOrder.
  rewrite (fillPriceOf_falsy o daPrice Hf), fillPriceOf_filled_at.
  change (status (filled_at daPrice o)) with (status o).
  change (side (filled_at daPrice o)) with (side o).
  change (quantity_mwh (filled_at daPrice o)) with (quantity_mwh o).
  rewrite Hs. cbn [Status_eqb negb].
  eexists. split; reflexivity.
Qed.

Lemma calculatePnL_fill_price_fallback_witness :
  exists v,
    nth_error (calculatePnL [sell_zero_fill] 50 eight_buckets) 0
    = Some (mkOrderWithPnl sell_zero_fill v)
    /\ calculatePnL [filled_at 50 sell_zero_fill] 50 eight_buckets
       = [mkOrderWithPnl (filled_at 50 sell_zero_fill) v].
Proof.
  apply (calculatePnL_fill_price_fallback [sell_zero_fill] 50
           eight_buckets 0%nat sell_zero_fill); try reflexivity.
  right. exists 0. split; reflexivity.
Defined.

(** The P&L of a filled order is never a fraction of a cent: it is
    [NaN], an infinity, or the double of a whole number of cents [k]
    (the double nearest to [k / 100]). *)
Theorem calculatePnL_whole_cents (orders : list Order) (daPrice : Q)
  (rtPrices : list Q) (i : nat) (o : Order) :
  nth_error orders i = Some o ->
  status o = Filled ->
  exists v,
    nth_error (calculatePnL orders daPrice rtPrices) i
    = Some (mkOrderWithPnl o (Some v))
    /\ (v = NaN
        \/ (exists s, v = S754_infinity s)
        \/ exists k : Z, SameValueZero v (div (of_Z k) (of_Z 100))).
Proof.
  intros Hi Hs.
  pose proof (calculatePnL_filled64 orders daPrice rtPrices i o Hi Hs)
    as H. cbv zeta in H.
  eexists. split; [exact H|].
  match goal with |- context [round ?x] => generalize x end.
  intros x. rewrite of_Z_100.
  destruct x as [s | s | | s m e].
  - right; right. exists 0%Z. right.
    exists (xorb s false), false. split; reflexivity.
  - right; left. exists (xorb s false). reflexivity.
  - left. reflexivity.
  - right; right. cbn [round].
    set (k := Qfloor (inject_Z (cond_Zopp s (Z.pos m)) * Qpower 2 e
                      + (1 # 2))).
    exists k. destruct (Z.eq_dec k 0) as [-> | Hk].
    + right. exists (xorb s false), false. split; reflexivity.
    + left. rewrite (of_Z_nonzero k s Hk). reflexivity.
Qed.

Lemma calculatePnL_whole_cents_witness :
  exists v,
    nth_error (calculatePnL [documented_buy] 0 prices_avg_52_30) 0
    = Some (mkOrderWithPnl documented_buy (Some v))
    /\ (v = NaN
        \/ (exists s, v = S754_infinity s)
        \/ exists k : Z, SameValueZero v (div (of_Z k) (of_Z 100))).
Proof.
  apply (calculatePnL_whole_cents [documented_buy] 0 prices_avg_52_30
           0%nat documented_buy); reflexivity.
Defined.

End PnL64.
(* ================================================================== *)
(** ** Order caps per slot *)
(* ================================================================== *)

Section SlotCap.
Import Api Samples.
Local Open Scope string_scope.
Local Open Scope Z_scope.

Lemma inSlot_for_slot (m : Market) (slot : string) (o : Order) :
  inSlot m slot o = true <-> for_slot m slot o.
Proof.
  unfold inSlot, for_slot, opt_string_eqb.
  destruct m, (market o); simpl;
    try (split; [discriminate | intros [H _]; discriminate]).
  - rewrite String.eqb_eq. tauto.
  - destruct (time_slot o) as [s|].
    + rewrite String.eqb_eq. split.
      * intros ->. auto.
      * intros [_ H]. now inversion H.
    + split; [discriminate | intros [_ H]; discriminate].
Qed.

Lemma filter_slot_count (m : Market) (slot : string) (l : list Order) :
  slot_count m slot l (Z.of_nat (List.length (filter (inSlot m slot) l))).
Proof.
  induction l as [|o l IH]; simpl.
  - constructor.
  - destruct (inSlot m slot o) eqn:E.
    + simpl List.length. rewrite Nat2Z.inj_succ, <- Z.add_1_r.
      apply slot_count_in; [now apply inSlot_for_slot | exact IH].
    + apply slot_count_out; [|exact IH].
      intros H. apply inSlot_for_slot in H. congruence.
Qed.

Lemma slot_count_unique (m : Market) (slot : string) (l : list Order) :
  forall n n', slot_count m slot l n -> slot_count m slot l n' -> n = n'.
Proof.
  induction l as [|o l IH]; intros n n' H H'; inversion H; inversion H'; subst;
    try reflexivity; try contradiction;
    match goal with
    | A : slot_count _ _ l ?a, B : slot_count _ _ l ?b |- _ =>
        rewrite (IH a b A B); reflexivity
    end.
Qed.

Lemma page_cap (m : Market) :
  OrderManagement.maxOrdersPerSlot m
  = match m with DayAhead => 10 | RealTime => 50 end.
Proof. destruct m; reflexivity. Qed.

(** Claim C6.  With [count] existing orders for the market and slot, the
    check accepts exactly when [count] is below the cap (10 for a
    day-ahead hour, 50 for a real-time slot) and reports [cap - count]
    as remaining; the page's submit handler, once the market is open,
    passes its slot guard exactly when the slot's count is below the
    same cap. *)
Theorem validateOrderLimits_slot_cap (m : Market) (slot : string)
  (existingOrders : list Order) (count : Z) :
  slot_count m slot existingOrders count ->
  let r := validateOrderLimits m slot existingOrders in
  let cap := match m with DayAhead => 10 | RealTime => 50 end in
  currentCount r = count
  /\ maxCount r = cap
  /\ (isValid r = true <-> count < cap)
  /\ remaining r = cap - count
  /\ forall st : OrderManagement.PageState,
      OrderManagement.selectedMarket st = m ->
      (OrderManagement.handleSubmitOrder_guards st true
       = OrderManagement.GuardsPassed
       <-> OrderManagement.currentSlotOrders st < cap).
Proof.
  intros Hc r cap.
  assert (Hn : currentCount r = count)
    by (apply (slot_count_unique m slot existingOrders);
        [apply filter_slot_count | exact Hc]).
  assert (Hm : maxCount r = cap) by (destruct m; reflexivity).
  split; [exact Hn|]. split; [exact Hm|]. split; [|split].
  - rewrite <- Hn, <- Hm. unfold r, validateOrderLimits. simpl.
    apply Z.ltb_lt.
  - rewrite <- Hn, <- Hm. reflexivity.
  - intros st Hst. unfold OrderManagement.handleSubmitOrder_guards.
    rewrite andb_false_r, page_cap, Hst. fold cap.
    destruct (OrderManagement.currentSlotOrders st >=? cap) eqn:E.
    + split; [discriminate|]. intros Hlt.
      apply Z.geb_le in E. lia.
    + split; [|reflexivity]. intros _.
      rewrite Z.geb_leb in E. apply Z.leb_gt in E. exact E.
Qed.

Lemma validateOrderLimits_slot_cap_witness :
  let r := validateOrderLimits DayAhead "2025-08-15T14:00:00Z" three_orders in
  currentCount r = 2
  /\ maxCount r = 10
  /\ (isValid r = true <-> 2 < 10)
  /\ remaining r = 10 - 2
  /\ forall st : OrderManagement.PageState,
      OrderManagement.selectedMarket st = DayAhead ->
      (OrderManagement.handleSubmitOrder_guards st true
       = OrderManagement.GuardsPassed
       <-> OrderManagement.currentSlotOrders st < 10).
Proof.
  apply (validateOrderLimits_slot_cap DayAhead "2025-08-15T14:00:00Z"
           three_orders 2).
  apply (filter_slot_count DayAhead "2025-08-15T14:00:00Z" three_orders).
Defined.

End SlotCap.

(* ================================================================== *)
(** ** Deleting orders from the page's store *)
(* ================================================================== *)

Section Deletion.
Import OrderManagement Samples.
Local Open Scope string_scope.

Lemma handleDeleteOrder_In (orderId : string) (store : list Order) (o : Order) :
  In o (handleDeleteOrder orderId store) <-> In o store /\ id o <> orderId.
Proof.
  unfold handleDeleteOrder. rewrite filter_In, negb_true_iff.
  split; intros [Hin H]; split; try assumption.
  - intros E. apply String.eqb_eq in E. congruence.
  - apply String.eqb_neq. exact H.
Qed.




End Deletion.

(* ================================================================== *)
(** ** The matching rule *)
(* ================================================================== *)

Section Matching.
Import Engine Samples.
Local Open Scope Q_scope.

(** Claim C4.  A limit buy fills at the reference price iff the
    reference price is at most its limit, a limit sell iff the reference
    price is at least its limit; otherwise the order is rejected with
    reason LimitNotMet.  The day-ahead sell with limit 55.00 against a
    clearing price of 50.00 is rejected with that reason. *)
Theorem decide_limit_order (o : EngineOrder) (reference_price limit_price : Q) :
  order_type o = LimitOrder limit_price ->
  match e_side o with
  | Buy =>
      (decide o reference_price = Fill reference_price (e_quantity_mwh o)
       <-> reference_price <= limit_price)
      /\ (~ reference_price <= limit_price ->
          decide o reference_price = Reject LimitNotMet)
  | Sell =>
      (decide o reference_price = Fill reference_price (e_quantity_mwh o)
       <-> reference_price >= limit_price)
      /\ (~ reference_price >= limit_price ->
          decide o reference_price = Reject LimitNotMet)
  end
  /\ decide sell_limit_55 50 = Reject LimitNotMet
  /\ e_status (apply_decision sell_limit_55 (decide sell_limit_55 50))
     = ERejected.
Proof.
  intros Ht. split; [|split; reflexivity].
  unfold decide. rewrite Ht.
  destruct (e_side o).
  - destruct (Qle_bool reference_price limit_price) eqn:E.
    + apply Qle_bool_iff in E. split; [tauto | contradiction].
    + split.
      * split; [discriminate|]. intros H. apply Qle_bool_iff in H. congruence.
      * reflexivity.
  - destruct (Qle_bool limit_price reference_price) eqn:E.
    + apply Qle_bool_iff in E. split; [tauto | contradiction].
    + split.
      * split; [discriminate|]. intros H. apply Qle_bool_iff in H. congruence.
      * reflexivity.
Qed.

Lemma decide_limit_order_witness :
  ((decide buy_limit_50 (195 # 4) = Fill (195 # 4) (5 # 2)
    <-> 195 # 4 <= 50)
   /\ (~ 195 # 4 <= 50 -> decide buy_limit_50 (195 # 4) = Reject LimitNotMet))
  /\ decide sell_limit_55 50 = Reject LimitNotMet
  /\ e_status (apply_decision sell_limit_55 (decide sell_limit_55 50))
     = ERejected.
Proof.
  apply (decide_limit_order buy_limit_50 (195 # 4) 50). reflexivity.
Defined.

End Matching.

(* ================================================================== *)
(** ** Calendar and text round trips *)
(* ================================================================== *)

Section Calendar.
Import Civil Text Range.

Lemma all_from_spec (p : Z -> bool) (fuel : nat) :
  forall i, all_from fuel i p = true ->
  forall k, i <= k < i + Z.of_nat fuel -> p k = true.
Proof.
  induction fuel as [|fuel IH]; intros i Hall k Hk.
  - lia.
  - simpl in Hall. destruct (p i) eqn:Hp; [|discriminate].
    destruct (Z.eq_dec k i) as [->|Hne]; [exact Hp|].
    apply (IH (i + 1) Hall). lia.
Qed.

(** The year of the era and the day of that year, for a day of the era. *)
Lemma yoe_doy_bounds (doe : Z) :
  0 <= doe < DAYS_PER_ERA ->
  0 <= yoe_of_doe doe < 400 /\ 0 <= doy_of_doe doe < 366.
Proof.
  unfold doy_of_doe, yoe_of_doe, DAYS_PER_ERA. intros H. cbv zeta.
  div_mod_lia.
Qed.

(** Month and day of a day of the (March-based) year, and the way back. *)
Lemma month_day_of_doy (doy : Z) :
  0 <= doy < 366 ->
  let m := month_of_doy doy in
  let d := day_of_doy doy in
  1 <= m <= 12 /\ 1 <= d <= 31
  /\ (153 * (if 2 <? m then m - 3 else m + 9) + 2) / 5 + d - 1 = doy.
Proof.
  intros H. unfold month_of_doy, day_of_doy. cbv zeta.
  assert (Hmp : 0 <= (5 * doy + 2) / 153 <= 11) by div_mod_lia.
  set (mp := (5 * doy + 2) / 153) in *.
  assert (Hd : 1 <= doy - (153 * mp + 2) / 5 + 1 <= 31)
    by (unfold mp; div_mod_lia).
  destruct (mp <? 10) eqn:E.
  - apply Z.ltb_lt in E.
    replace (2 <? mp + 3) with true by (symmetry; apply Z.ltb_lt; lia).
    replace (mp + 3 - 3) with mp by lia. lia.
  - apply Z.ltb_ge in E.
    replace (2 <? mp - 9) with false by (symmetry; apply Z.ltb_ge; lia).
    replace (mp - 9 + 9) with mp by lia. lia.
Qed.

Lemma era_day_facts (doe : Z) :
  0 <= doe < DAYS_PER_ERA ->
  let yoe := yoe_of_doe doe in
  let m := month_of_doy (doy_of_doe doe) in
  let d := day_of_doy (doy_of_doe doe) in
  0 <= yoe < 400 /\ 1 <= m <= 12 /\ 1 <= d <= 31
  /\ yoe * 365 + yoe / 4 - yoe / 100
     + ((153 * (if 2 <? m then m - 3 else m + 9) + 2) / 5 + d - 1) = doe.
Proof.
  intros H. destruct (yoe_doy_bounds doe H) as (Hy & Hdoy).
  destruct (month_day_of_doy _ Hdoy) as (Hm & Hd & Hback).
  cbv zeta in *. repeat split; try tauto.
  rewrite Hback. unfold doy_of_doe. cbv zeta. lia.
Qed.

Lemma civil_from_days_fields (z : Z) :
  let c := civil_from_days z in
  1 <= month c <= 12 /\ 1 <= day c <= 31
  /\ ((z + EPOCH_SHIFT) / DAYS_PER_ERA) * 400 <= year c
     <= ((z + EPOCH_SHIFT) / DAYS_PER_ERA) * 400 + 400.
Proof.
  assert (Hdoe : 0 <= (z + EPOCH_SHIFT) mod DAYS_PER_ERA < DAYS_PER_ERA)
    by (apply Z.mod_pos_bound; reflexivity).
  destruct (era_day_facts _ Hdoe) as (Hy & Hm & Hd & _).
  unfold civil_from_days. cbv zeta. simpl year; simpl month; simpl day.
  repeat split; try tauto;
    destruct (_ <=? 2); lia.
Qed.

(** Counting the days of a date gives back the day it was computed from. *)
Lemma days_from_civil_of_days (z : Z) :
  let c := civil_from_days z in
  days_from_civil (year c) (month c) (day c) = z.
Proof.
  assert (Hdoe : 0 <= (z + EPOCH_SHIFT) mod DAYS_PER_ERA < DAYS_PER_ERA)
    by (apply Z.mod_pos_bound; reflexivity).
  destruct (era_day_facts _ Hdoe) as (Hy & Hm & Hd & Hback).
  cbv zeta in *.
  unfold civil_from_days. cbv zeta. simpl year; simpl month; simpl day.
  set (doe := (z + EPOCH_SHIFT) mod DAYS_PER_ERA) in *.
  set (era := (z + EPOCH_SHIFT) / DAYS_PER_ERA).
  set (yoe := yoe_of_doe doe) in *.
  set (m := month_of_doy (doy_of_doe doe)) in *.
  set (d := day_of_doy (doy_of_doe doe)) in *.
  unfold days_from_civil.
  assert (Hy0 : (if m <=? 2
                 then (if m <=? 2 then yoe + era * 400 + 1 else yoe + era * 400) - 1
                 else (if m <=? 2 then yoe + era * 400 + 1 else yoe + era * 400))
                = yoe + era * 400)
    by (destruct (m <=? 2); lia).
  rewrite Hy0.
  rewrite Z.div_add, Z.mod_add by lia.
  rewrite (Z.div_small yoe 400), (Z.mod_small yoe 400) by lia.
  rewrite Z.add_0_l.
  pose proof (Z.div_mod (z + EPOCH_SHIFT) DAYS_PER_ERA ltac:(discriminate)) as Hz.
  fold doe era in Hz. lia.
Qed.

(** Days before 10000-01-01 fall in years of at most four digits. *)
Lemma year_below_10000 (z : Z) :
  z < 2932897 -> year (civil_from_days z) <= 9999.
Proof.
  intros H.
  assert (Hdoe : 0 <= (z + EPOCH_SHIFT) mod DAYS_PER_ERA < DAYS_PER_ERA)
    by (apply Z.mod_pos_bound; reflexivity).
  destruct (yoe_doy_bounds _ Hdoe) as (Hy & Hdoy).
  unfold civil_from_days. cbv zeta. cbn [year].
  set (doe := (z + EPOCH_SHIFT) mod DAYS_PER_ERA) in *.
  set (era := (z + EPOCH_SHIFT) / DAYS_PER_ERA).
  assert (Hera : era <= 24 /\ (era = 24 -> doe < 146037)).
  { unfold era, doe, EPOCH_SHIFT, DAYS_PER_ERA in *. div_mod_lia. }
  destruct (month_of_doy (doy_of_doe doe) <=? 2) eqn:E; [|lia].
  apply Z.leb_le in E.
  destruct (Z.eq_dec era 24) as [He | He]; [|lia].
  destruct Hera as (_ & Hd). specialize (Hd He).
  destruct (Z.eq_dec (yoe_of_doe doe) 399) as [Hy9 | Hy9]; [|lia].
  exfalso. unfold month_of_doy in E. unfold doy_of_doe in *.
  cbv zeta in *. rewrite Hy9 in *.
  destruct (_ <? 10) eqn:E2 in E.
  - apply Z.ltb_lt in E2. div_mod_lia.
  - apply Z.ltb_ge in E2. div_mod_lia.
Qed.

Lemma days_from_civil_linear (y m d : Z) :
  days_from_civil y m d = days_from_civil y m 1 + d - 1.
Proof. unfold days_from_civil. lia. Qed.
End Calendar.

Section Strings.
Import Civil Text Range.
Local Open Scope string_scope.


Lemma digit_value_digit (d : Z) :
  0 <= d < 10 -> digit_value (digit d) = Some d.
Proof.
  intros H.
  assert (Hc : d = 0 \/ d = 1 \/ d = 2 \/ d = 3 \/ d = 4 \/ d = 5
               \/ d = 6 \/ d = 7 \/ d = 8 \/ d = 9) by lia.
  repeat (destruct Hc as [-> | Hc]; [reflexivity|]). subst d. reflexivity.
Qed.

Lemma pad2_checked : all_from (Z.to_nat 100) 0 pad2_ok = true.
Proof. vm_cast_no_check (eq_refl true). Qed.

Lemma pad4_checked : all_from (Z.to_nat 10000) 0 pad4_ok = true.
Proof. vm_cast_no_check (eq_refl true). Qed.

Lemma pad2_digits (n : Z) : 0 <= n < 100 -> pad 2 n = digits2 n.
Proof.
  intros H. apply String.eqb_eq.
  apply (all_from_spec pad2_ok _ 0 pad2_checked). rewrite Z2Nat.id; lia.
Qed.

Lemma pad4_digits (n : Z) : 0 <= n < 10000 -> pad 4 n = digits4 n.
Proof.
  intros H. apply String.eqb_eq.
  apply (all_from_spec pad4_ok _ 0 pad4_checked). rewrite Z2Nat.id; lia.
Qed.

Lemma take_digits2 (n : Z) (rest : string) :
  0 <= n < 100 -> take_digits 2 0 (digits2 n ++ rest) = Some (n, rest).
Proof.
  intros H. unfold digits2. cbn [append take_digits].
  rewrite !digit_value_digit by div_mod_lia.
  do 2 f_equal. div_mod_lia.
Qed.

Lemma take_digits4 (n : Z) (rest : string) :
  0 <= n < 10000 -> take_digits 4 0 (digits4 n ++ rest) = Some (n, rest).
Proof.
  intros H. unfold digits4. cbn [append take_digits].
  rewrite !digit_value_digit by div_mod_lia.
  do 2 f_equal. div_mod_lia.
Qed.

Lemma append_assoc (a b c : string) : (a ++ b) ++ c = a ++ (b ++ c).
Proof. induction a as [|x a IH]; simpl; [reflexivity | now rewrite IH]. Qed.

Lemma take_pad2 (n : Z) (rest : string) :
  0 <= n < 100 -> take_digits 2 0 (pad 2 n ++ rest) = Some (n, rest).
Proof. intros H. rewrite pad2_digits by exact H. now apply take_digits2. Qed.

Lemma take_pad4 (n : Z) (rest : string) :
  0 <= n < 10000 -> take_digits 4 0 (pad 4 n ++ rest) = Some (n, rest).
Proof. intros H. rewrite pad4_digits by exact H. now apply take_digits4. Qed.

Lemma take_pad2_end (n : Z) :
  0 <= n < 100 -> take_digits 2 0 (pad 2 n) = Some (n, "").
Proof.
  intros H. rewrite pad2_digits by exact H.
  apply (take_digits2 n "" H).
Qed.
End Strings.

Section ParseFormat.
Import Civil Text Range Dayjs.
Local Open Scope string_scope.
Local Open Scope Z_scope.

Lemma clock_fields (l : Z) :
  0 <= hour_of l < 24 /\ 0 <= minute_of l < 60 /\ 0 <= second_of l < 60.
Proof.
  unfold hour_of, minute_of, second_of, MS_PER_DAY, MS_PER_HOUR,
    MS_PER_MINUTE, MS_PER_SECOND.
  repeat split; div_mod_lia.
Qed.

Lemma date_fields (l : Z) :
  LOCAL_MIN <= l < LOCAL_MAX ->
  let c := date_of l in
  2000 <= year c <= 9999 /\ 1 <= month c <= 12 /\ 1 <= day c <= 31.
Proof.
  intros H. unfold date_of.
  destruct (civil_from_days_fields (l / MS_PER_DAY)) as (Hm & Hd & Hy).
  cbv zeta in *. repeat split; try tauto.
  - unfold LOCAL_MIN, LOCAL_MAX, MS_PER_DAY, EPOCH_SHIFT, DAYS_PER_ERA in *.
    div_mod_lia.
  - apply year_below_10000.
    unfold LOCAL_MIN, LOCAL_MAX, MS_PER_DAY in *. div_mod_lia.
Qed.

Lemma Date_UTC_of_fields (l : Z) :
  LOCAL_MIN <= l < LOCAL_MAX ->
  let c := date_of l in
  Date_UTC (year c) (month c - 1) (day c) (hour_of l) (minute_of l)
    (second_of l)
  = l - l mod MS_PER_SECOND.
Proof.
  intros H. destruct (date_fields l H) as (Hy & Hm & Hd). cbv zeta in *.
  unfold Date_UTC.
  replace ((0 <=? year (date_of l)) && (year (date_of l) <=? 99)) with false
    by (symmetry; apply andb_false_iff; right; apply Z.leb_gt; lia).
  rewrite (Z.div_small (month (date_of l) - 1) 12) by lia.
  rewrite (Z.mod_small (month (date_of l) - 1) 12) by lia.
  replace (year (date_of l) + 0) with (year (date_of l)) by lia.
  replace (month (date_of l) - 1 + 1) with (month (date_of l)) by lia.
  rewrite <- days_from_civil_linear.
  unfold date_of. rewrite days_from_civil_of_days.
  unfold hour_of, minute_of, second_of, MS_PER_DAY, MS_PER_HOUR,
    MS_PER_MINUTE, MS_PER_SECOND.
  div_mod_lia.
Qed.

Lemma parseLocal_format (d : t) :
  LOCAL_MIN <= localTs d < LOCAL_MAX ->
  localTs d mod MS_PER_MINUTE = 0 ->
  parseLocal (format_date d ++ " " ++ format_time d) = Some (localTs d).
Proof.
  intros Hr Hmin.
  destruct (date_fields _ Hr) as (Hy & Hm & Hd).
  destruct (clock_fields (localTs d)) as (Hh & Hmi & Hs).
  pose proof (Date_UTC_of_fields _ Hr) as Hutc. cbv zeta in *.
  unfold parseLocal, format_date, format_time, hour, minute.
  rewrite !append_assoc.
  rewrite take_pad4 by lia. cbn [append expect Ascii.eqb Bool.eqb].
  rewrite take_pad2 by lia. cbn [append expect Ascii.eqb Bool.eqb].
  rewrite take_pad2 by lia. cbn [append expect Ascii.eqb Bool.eqb].
  rewrite take_pad2 by lia. cbn [append expect Ascii.eqb Bool.eqb].
  rewrite take_pad2_end by lia.
  f_equal.
  replace 0 with (second_of (localTs d)) at 1.
  - rewrite Hutc. unfold MS_PER_MINUTE, MS_PER_SECOND in *. div_mod_lia.
  - unfold second_of. rewrite Hmin. reflexivity.
Qed.
End ParseFormat.

(* ================================================================== *)
(** ** Eastern time to UTC and back *)
(* ================================================================== *)

Section RoundTrip.
Import Civil Text Range Dayjs Timezone Samples.
Local Open Scope string_scope.
Local Open Scope Z_scope.

Lemma localTs_utc (u : Z) (z : Zone) : localTs (utc (mk u z)) = u.
Proof. unfold localTs, utcOffset, utc, UTC, fixedZone. simpl. lia. Qed.

Lemma format_utc_instant (u : Z) (z : Zone) :
  format_utc (Some (mk u z)) = iso u.
Proof. reflexivity. Qed.

Lemma parseIso_iso (u : Z) :
  LOCAL_MIN <= u < LOCAL_MAX ->
  u mod MS_PER_SECOND = 0 ->
  parseIso (iso u) = Some u.
Proof.
  intros Hr Hsec.
  unfold iso, format_utc, format_date, format_time, hour, minute, second.
  rewrite !localTs_utc.
  destruct (date_fields _ Hr) as (Hy & Hm & Hd).
  destruct (clock_fields u) as (Hh & Hmi & Hs). cbv zeta in *.
  unfold parseIso.
  rewrite !append_assoc.
  rewrite take_pad4 by lia. cbn [append expect Ascii.eqb Bool.eqb].
  rewrite take_pad2 by lia. cbn [append expect Ascii.eqb Bool.eqb].
  rewrite take_pad2 by lia. cbn [append expect Ascii.eqb Bool.eqb].
  rewrite take_pad2 by lia. cbn [append expect Ascii.eqb Bool.eqb].
  rewrite take_pad2 by lia. cbn [append expect Ascii.eqb Bool.eqb].
  rewrite take_pad2 by lia.
  unfold in_range.
  repeat match goal with
         | |- context [?a <=? ?b] =>
             replace (a <=? b) with true by (symmetry; apply Z.leb_le; lia)
         end.
  cbn [andb]. f_equal.
  unfold date_of. rewrite days_from_civil_of_days.
  unfold hour_of, minute_of, second_of, MS_PER_DAY, MS_PER_HOUR,
    MS_PER_MINUTE, MS_PER_SECOND in *.
  div_mod_lia.
Qed.

Lemma New_York_offset (u : Z) :
  America_New_York u = EDT \/ America_New_York u = EST.
Proof. unfold America_New_York. destruct (is_dst u); auto. Qed.

(** Outside the repeated hour, the search finds the instant a New York
    wall-clock value was read from, whatever the first guess. *)
Lemma fixOffset_New_York (now u : Z) :
  in_repeated_hour u = false ->
  fst (fixOffset (u + America_New_York u * MS_PER_MINUTE)
         (America_New_York now) America_New_York) = u.
Proof.
  unfold in_repeated_hour, fixOffset, America_New_York.
  destruct (is_dst u) eqn:Hu; destruct (is_dst now) eqn:Hn; intros Hrep.
  - replace (u + EDT * MS_PER_MINUTE - EDT * MS_PER_MINUTE) with u by lia.
    rewrite Hu. reflexivity.
  - replace (u + EDT * MS_PER_MINUTE - EST * MS_PER_MINUTE)
      with (u + MS_PER_HOUR) by (unfold EDT, EST, MS_PER_MINUTE, MS_PER_HOUR; lia).
    apply negb_false_iff in Hrep. rewrite Hrep. cbn [Z.eqb EST EDT Pos.eqb].
    replace (u + MS_PER_HOUR - (EDT - EST) * MS_PER_MINUTE) with u
      by (unfold EDT, EST, MS_PER_MINUTE, MS_PER_HOUR; lia).
    rewrite Hu. reflexivity.
  - replace (u + EST * MS_PER_MINUTE - EDT * MS_PER_MINUTE)
      with (u - MS_PER_HOUR) by (unfold EDT, EST, MS_PER_MINUTE, MS_PER_HOUR; lia).
    rewrite Hrep. cbn [Z.eqb EST EDT Pos.eqb].
    replace (u - MS_PER_HOUR - (EST - EDT) * MS_PER_MINUTE) with u
      by (unfold EDT, EST, MS_PER_MINUTE, MS_PER_HOUR; lia).
    rewrite Hu. reflexivity.
  - replace (u + EST * MS_PER_MINUTE - EST * MS_PER_MINUTE) with u by lia.
    rewrite Hu. reflexivity.
Qed.

Lemma New_York_local_range (u : Z) :
  RULE_START <= u < RULE_END ->
  LOCAL_MIN <= u + America_New_York u * MS_PER_MINUTE < LOCAL_MAX.
Proof.
  intros H. destruct (New_York_offset u) as [-> | ->];
    unfold RULE_START, RULE_END, LOCAL_MIN, LOCAL_MAX, EDT, EST,
      MS_PER_MINUTE in *; lia.
Qed.

Lemma round15_quarter (x : Z) : x mod 15 = 0 -> round15 x = x.
Proof. unfold round15. intros H. div_mod_lia. Qed.

Lemma steady_offset (host : Zone) (u v : Z) :
  steady host u ->
  u - 3 * MS_PER_DAY <= v <= u + 3 * MS_PER_DAY ->
  host v = host u.
Proof. intros (_ & _ & H). apply H. Qed.

(** In a steady browser a wall-clock value near [u] is read at the
    browser's offset. *)
Lemma UTC_of_local_steady (host : Zone) (u t : Z) :
  steady host u ->
  u - MS_PER_DAY <= t <= u + MS_PER_DAY ->
  UTC_of_local host (t + host u * MS_PER_MINUTE) = t.
Proof.
  intros Hs Ht. pose proof Hs as (_ & Hc & _).
  unfold UTC_of_local. cbv zeta.
  rewrite (steady_offset host u (t + host u * MS_PER_MINUTE - MS_PER_DAY) Hs)
    by (unfold MS_PER_DAY, MS_PER_MINUTE in *; lia).
  replace (t + host u * MS_PER_MINUTE - host u * MS_PER_MINUTE) with t
    by lia.
  rewrite (steady_offset host u t Hs)
    by (unfold MS_PER_DAY in *; lia).
  rewrite Z.eqb_refl. reflexivity.
Qed.

(** In a steady browser [tzIn] gives the Eastern reading of the
    instant. *)
Lemma tzIn_steady (host : Zone) (u : Z) :
  steady host u ->
  tzIn host (dayjs host u) America_New_York
  = tz (mk u UTC) America_New_York.
Proof.
  intros Hs. pose proof Hs as (Hq & Hc & _).
  unfold tzIn, tz, dayjs. cbn [valueOf]. cbv zeta.
  set (c := host u) in *.
  set (z := America_New_York u).
  assert (Hz : z = EDT \/ z = EST) by apply New_York_offset.
  set (t := u - u mod MS_PER_SECOND + (z - c) * MS_PER_MINUTE).
  assert (Ht : u - MS_PER_DAY <= t <= u + MS_PER_DAY)
    by (unfold t, EDT, EST in *; clear Hs; clock_unfold;
        destruct Hz as [-> | ->]; div_mod_lia).
  replace (u - u mod MS_PER_SECOND + z * MS_PER_MINUTE)
    with (t + c * MS_PER_MINUTE) by (unfold t; lia).
  assert (Hparsed : UTC_of_local host (t + c * MS_PER_MINUTE) = t)
    by exact (UTC_of_local_steady host u t Hs Ht).
  rewrite Hparsed.
  assert (Hdiff : (u - t + 30000) / MS_PER_MINUTE = c - z)
    by (unfold t; clock_unfold; div_mod_lia).
  rewrite Hdiff. unfold getTimezoneOffset. fold c.
  rewrite (round15_quarter (- c)) by div_mod_lia.
  replace (- - c - (c - z)) with z by lia.
  assert (Hz0 : (z =? 0) = false)
    by (destruct Hz as [-> | ->]; reflexivity).
  rewrite Hz0.
  assert (Hhm : hoursOrMinutes z = z)
    by (destruct Hz as [-> | ->]; reflexivity).
  rewrite Hhm.
  unfold set_millisecond, fromLocal, localTs, utcOffset.
  cbn [valueOf zone].
  rewrite (steady_offset host u t Hs) by (unfold MS_PER_DAY in *; lia).
  fold c.
  assert (Hl : t + c * MS_PER_MINUTE
               - (t + c * MS_PER_MINUTE) mod MS_PER_SECOND
               + u mod MS_PER_SECOND
               = (t + u mod MS_PER_SECOND) + c * MS_PER_MINUTE)
    by (unfold t; clock_unfold; div_mod_lia).
  rewrite Hl.
  assert (Ht' : u - MS_PER_DAY <= t + u mod MS_PER_SECOND
                <= u + MS_PER_DAY)
    by (clear Hl Hdiff Hparsed; unfold t, EDT, EST in *; clock_unfold;
        destruct Hz as [Ez | Ez]; rewrite Ez; div_mod_lia).
  assert (Hins : UTC_of_local host
                   (t + u mod MS_PER_SECOND + c * MS_PER_MINUTE)
                 = t + u mod MS_PER_SECOND)
    by exact (UTC_of_local_steady host u _ Hs Ht').
  rewrite Hins.
  rewrite (steady_offset host u (t + u mod MS_PER_SECOND) Hs)
    by (unfold MS_PER_DAY in *; lia).
  fold c. f_equal. unfold t. clock_unfold. div_mod_lia.
Qed.

(** In a steady browser the object made by [dayjs.tz] for the instant
    [ts] has that instant as its value, and so has it moved by five
    minutes. *)
Lemma zoned_steady (host : Zone) (u ts off : Z) :
  steady host u ->
  u - MS_PER_DAY <= ts <= u + MS_PER_DAY ->
  off = EDT \/ off = EST ->
  let o := OffsetMode
             (ts + (off + round15 (getTimezoneOffset host ts))
                   * MS_PER_MINUTE)
             off (round15 (getTimezoneOffset host ts)) in
  zonedValueOf host o = ts
  /\ zonedValueOf host (zonedAdd 5 Minute o) = ts + 5 * MS_PER_MINUTE.
Proof.
  intros Hs Ht Hoff. pose proof Hs as (Hq & Hc & _). cbv zeta.
  unfold getTimezoneOffset.
  rewrite (steady_offset host u ts Hs) by (unfold MS_PER_DAY in *; lia).
  set (c := host u) in *.
  rewrite (round15_quarter (- c)) by div_mod_lia.
  unfold zonedValueOf, zonedAdd, getTimezoneOffset. cbn [step].
  destruct (- c =? 0) eqn:E.
  - apply Z.eqb_eq in E.
    assert (H1 : host (ts + (off + - c) * MS_PER_MINUTE) = c)
      by (apply (steady_offset host u _ Hs);
          unfold EDT, EST, MS_PER_DAY, MS_PER_MINUTE in *;
          destruct Hoff as [-> | ->]; lia).
    assert (H2 : host (ts + (off + - c) * MS_PER_MINUTE
                       + 5 * MS_PER_MINUTE) = c)
      by (apply (steady_offset host u _ Hs);
          unfold EDT, EST, MS_PER_DAY, MS_PER_MINUTE in *;
          destruct Hoff as [-> | ->]; lia).
    rewrite H1, H2. split; lia.
  - split; lia.
Qed.

(** The search gives an instant 4 or 5 hours after the wall-clock value,
    at the daylight or the standard offset. *)
Lemma fixOffset_New_York_cases (l now : Z) :
  exists ts off,
    fixOffset l (America_New_York now) America_New_York = (ts, off)
    /\ (ts = l + 240 * MS_PER_MINUTE \/ ts = l + 300 * MS_PER_MINUTE)
    /\ (off = EDT \/ off = EST).
Proof.
  unfold fixOffset.
  destruct (New_York_offset now) as [-> | ->];
    match goal with
    | |- context [America_New_York ?g] =>
        destruct (New_York_offset g) as [-> | ->]
    end;
    change (EDT =? EDT) with true; change (EST =? EST) with true;
    change (EDT =? EST) with false; change (EST =? EDT) with false;
    cbv iota;
    try (eexists; eexists; split; [reflexivity|];
         unfold EDT, EST, MS_PER_MINUTE; split; [lia | tauto]);
    match goal with
    | |- context [America_New_York ?g] =>
        destruct (New_York_offset g) as [-> | ->]
    end;
    change (EDT =? EDT) with true; change (EST =? EST) with true;
    change (EDT =? EST) with false; change (EST =? EDT) with false;
    cbv iota;
    change (Z.min EDT EST) with EST; change (Z.min EST EDT) with EST;
    change (Z.max EDT EST) with EDT; change (Z.max EST EDT) with EDT;
    eexists; eexists; (split; [reflexivity|]);
    unfold EDT, EST, MS_PER_MINUTE; (split; [lia | tauto]).
Qed.

(** [dayjs.tz] on a string that parses, in a steady browser: a UTC
    object for the instant found by the search. *)
Lemma tz_parse_steady (host : Zone) (now u l : Z) (input : string) :
  parseLocal input = Some l ->
  steady host u ->
  u - MS_PER_HOUR <= l + 240 * MS_PER_MINUTE <= u + MS_PER_HOUR ->
  exists o,
    tz_parse host now input America_New_York = Some o
    /\ zonedValueOf host o
       = fst (fixOffset l (America_New_York now) America_New_York)
    /\ zonedValueOf host (zonedAdd 5 Minute o)
       = fst (fixOffset l (America_New_York now) America_New_York)
         + 5 * MS_PER_MINUTE.
Proof.
  intros Hp Hs Hl. unfold tz_parse. rewrite Hp.
  destruct (fixOffset_New_York_cases l now) as (ts & off & -> & Hts & Hoff).
  assert (H0 : (off =? 0) = false)
    by (destruct Hoff as [-> | ->]; reflexivity).
  assert (Hhm : hoursOrMinutes off = off)
    by (destruct Hoff as [-> | ->]; reflexivity).
  rewrite H0, Hhm. eexists. split; [reflexivity|]. cbn [fst].
  apply (zoned_steady host u ts off Hs); [|exact Hoff].
  unfold MS_PER_DAY, MS_PER_HOUR, MS_PER_MINUTE in *.
  destruct Hts as [-> | ->]; lia.
Qed.

(** Claim C8, as amended.  For every instant [u] at whole-minute
    precision, from 2007 to the end of the year 9999, whose Eastern
    wall-clock reading is not in the hour repeated when the clocks go
    back, and in a browser whose own zone is steady around [u] (a
    quarter-hour offset, no clock change within three days),
    converting [u] to an Eastern date and time with [utcToEdt] and
    back with [edtToUtc] returns [u], whenever the call is made. *)
Theorem edtToUtc_utcToEdt (host : Zone) (now u : Z) :
  RULE_START <= u < RULE_END ->
  u mod MS_PER_MINUTE = 0 ->
  in_repeated_hour u = false ->
  steady host u ->
  edtToUtc host now (date (utcToEdt host (iso u)))
    (time (utcToEdt host (iso u)))
  = iso u.
Proof.
  intros Hr Hmin Hrep Hs.
  assert (Hsec : u mod MS_PER_SECOND = 0)
    by (unfold MS_PER_MINUTE, MS_PER_SECOND in *; div_mod_lia).
  assert (Hu : LOCAL_MIN <= u < LOCAL_MAX)
    by (unfold RULE_START, RULE_END, LOCAL_MIN, LOCAL_MAX in *; lia).
  unfold utcToEdt. rewrite (parseIso_iso u Hu Hsec).
  cbn [option_map date time format_YYYY_MM_DD format_HH_mm].
  unfold MARKET_TIMEZONE. rewrite (tzIn_steady host u Hs).
  set (d := tz (mk u UTC) America_New_York).
  assert (Hl : localTs d = u + America_New_York u * MS_PER_MINUTE)
    by reflexivity.
  assert (Hp : parseLocal (format_date d ++ " " ++ format_time d)
               = Some (localTs d)).
  { apply parseLocal_format.
    - rewrite Hl. apply New_York_local_range, Hr.
    - rewrite Hl. destruct (New_York_offset u) as [-> | ->];
        unfold EDT, EST, MS_PER_MINUTE in *; div_mod_lia. }
  unfold edtToUtc, MARKET_TIMEZONE.
  destruct (tz_parse_steady host now u (localTs d) _ Hp Hs)
    as (o & -> & Hv & _).
  { rewrite Hl. destruct (New_York_offset u) as [-> | ->];
      unfold EDT, EST, MS_PER_HOUR, MS_PER_MINUTE; lia. }
  cbn [option_map]. unfold zonedUtc. rewrite Hv, Hl.
  rewrite (fixOffset_New_York now u Hrep). apply format_utc_instant.
Qed.

Lemma edtToUtc_utcToEdt_witness :
  edtToUtc UTC summer_morning (date (utcToEdt UTC (iso summer_night)))
    (time (utcToEdt UTC (iso summer_night)))
  = iso summer_night.
Proof.
  apply (edtToUtc_utcToEdt UTC summer_morning summer_night).
  - unfold RULE_START, RULE_END, summer_night. lia.
  - reflexivity.
  - vm_compute. reflexivity.
  - split; [reflexivity|]. split; [vm_compute; split; discriminate|].
    intros v _. reflexivity.
Defined.

(** 05:30Z and 06:30Z on 2025-11-02 both read 01:30 in New York, so no
    conversion back can return both; called in summer in a browser set
    to UTC, [edtToUtc] returns the earlier one. *)
Lemma edtToUtc_utcToEdt_counterexample :
  second_0130 mod MS_PER_MINUTE = 0
  /\ iso second_0130 = "2025-11-02T06:30:00Z"
  /\ iso first_0130 = "2025-11-02T05:30:00Z"
  /\ utcToEdt UTC (iso second_0130) = utcToEdt UTC (iso first_0130)
  /\ date (utcToEdt UTC (iso second_0130)) = "2025-11-02"
  /\ time (utcToEdt UTC (iso second_0130)) = "01:30"
  /\ edtToUtc UTC summer_morning (date (utcToEdt UTC (iso second_0130)))
       (time (utcToEdt UTC (iso second_0130)))
     = "2025-11-02T05:30:00Z"
  /\ edtToUtc UTC summer_morning (date (utcToEdt UTC (iso second_0130)))
       (time (utcToEdt UTC (iso second_0130)))
     <> iso second_0130.
Proof.
  repeat match goal with |- _ /\ _ => split end;
    try (vm_compute; reflexivity).
  vm_compute. discriminate.
Qed.

(** Why the browser has to be steady: on 2025-03-30, when the clocks
    go forward in London, a browser set to London time reads
    05:30Z as 02:30 Eastern instead of 01:30 (01:30 does not exist on
    its own clock that day), and the way back gives 06:30Z. *)
Lemma utcToEdt_in_London :
  time (utcToEdt Europe_London "2025-03-30T05:30:00Z") = "02:30"
  /\ time (utcToEdt UTC "2025-03-30T05:30:00Z") = "01:30"
  /\ edtToUtc Europe_London summer_morning
       (date (utcToEdt Europe_London "2025-03-30T05:30:00Z"))
       (time (utcToEdt Europe_London "2025-03-30T05:30:00Z"))
     = "2025-03-30T06:30:00Z".
Proof. repeat split; vm_compute; reflexivity. Qed.

End RoundTrip.

(* ================================================================== *)
(** ** The day-ahead cutoff *)
(* ================================================================== *)

Section MarketHours.
Import Civil Dayjs Timezone Samples.
Local Open Scope string_scope.
Local Open Scope Z_scope.

(** Claim C5.  The real-time checks always answer true, and in a browser
    set to New York time [isDayAheadMarketOpen] is the Eastern 11:00
    cutoff.  But both day-ahead checks read the browser's zone: at
    2025-08-16T14:30:00Z (10:30 in New York) a browser set to UTC
    reports the day-ahead market closed.  On 2025-03-09, when the
    clocks go forward, [isDATradingOpen] still reports it open at 11:30
    in New York, even in a browser set to New York time. *)
Theorem da_cutoff_read_in_browser_zone :
  (forall now, Api.isDayAheadMarketOpen America_New_York now
               = before_eastern_cutoff now)
  /\ Api.isRealTimeMarketOpen = true
  /\ OrderPage.isRTMarketOpen = true
  /\ iso summer_morning = "2025-08-16T14:30:00Z"
  /\ format_HH_mm (Some (getCurrentEasternTime summer_morning)) = "10:30"
  /\ before_eastern_cutoff summer_morning = true
  /\ Api.isDayAheadMarketOpen UTC summer_morning = false
  /\ OrderPage.isDATradingOpen UTC summer_morning = false
  /\ iso spring_forward_1130 = "2025-03-09T15:30:00Z"
  /\ format_HH_mm (Some (getCurrentEasternTime spring_forward_1130)) = "11:30"
  /\ before_eastern_cutoff spring_forward_1130 = false
  /\ OrderPage.isDATradingOpen America_New_York spring_forward_1130 = true.
Proof.
  split.
  { intros now.
    unfold Api.isDayAheadMarketOpen, before_eastern_cutoff,
      getCurrentEasternTime, MARKET_TIMEZONE, hour, localTs, utcOffset.
    cbn [valueOf zone dayjs tz fixedZone]. reflexivity. }
  repeat match goal with |- _ /\ _ => split end;
    vm_compute; reflexivity.
Qed.

End MarketHours.
(* ================================================================== *)
(** ** Clock arithmetic in a browser at a fixed offset *)
(* ================================================================== *)

Section FixedOffset.
Import Civil Dayjs.
Local Open Scope Z_scope.

Variable c : Z.

Lemma UTC_of_local_fixed (l : Z) :
  UTC_of_local (fixedZone c) l = l - c * MS_PER_MINUTE.
Proof. unfold UTC_of_local, fixedZone. rewrite Z.eqb_refl. reflexivity. Qed.

Lemma fromLocal_fixed (u l : Z) :
  fromLocal (mk u (fixedZone c)) l
  = mk (l - c * MS_PER_MINUTE) (fixedZone c).
Proof.
  unfold fromLocal. cbn [zone]. rewrite UTC_of_local_fixed. reflexivity.
Qed.

Lemma localTs_fixed (u : Z) :
  localTs (mk u (fixedZone c)) = u + c * MS_PER_MINUTE.
Proof. reflexivity. Qed.

Lemma set_hour_fixed (h u : Z) :
  set_hour h (mk u (fixedZone c))
  = mk (u - hour_of (u + c * MS_PER_MINUTE) * MS_PER_HOUR + h * MS_PER_HOUR)
       (fixedZone c).
Proof.
  unfold set_hour. rewrite fromLocal_fixed, localTs_fixed. f_equal. lia.
Qed.

Lemma set_minute_fixed (m u : Z) :
  set_minute m (mk u (fixedZone c))
  = mk (u - minute_of (u + c * MS_PER_MINUTE) * MS_PER_MINUTE
        + m * MS_PER_MINUTE) (fixedZone c).
Proof.
  unfold set_minute. rewrite fromLocal_fixed, localTs_fixed. f_equal. lia.
Qed.

Lemma set_second_fixed (s u : Z) :
  set_second s (mk u (fixedZone c))
  = mk (u - second_of (u + c * MS_PER_MINUTE) * MS_PER_SECOND
        + s * MS_PER_SECOND) (fixedZone c).
Proof.
  unfold set_second. rewrite fromLocal_fixed, localTs_fixed. f_equal. lia.
Qed.

Lemma set_millisecond_fixed (ms u : Z) :
  set_millisecond ms (mk u (fixedZone c))
  = mk (u - (u + c * MS_PER_MINUTE) mod MS_PER_SECOND + ms) (fixedZone c).
Proof.
  unfold set_millisecond. rewrite fromLocal_fixed, localTs_fixed.
  f_equal. lia.
Qed.

Lemma setMinutes_fixed (m s ms u : Z) :
  setMinutes m s ms (mk u (fixedZone c))
  = mk (u - (u + c * MS_PER_MINUTE) mod MS_PER_HOUR
        + m * MS_PER_MINUTE + s * MS_PER_SECOND + ms) (fixedZone c).
Proof.
  unfold setMinutes. rewrite fromLocal_fixed, localTs_fixed. f_equal. lia.
Qed.

Lemma add_day_fixed (n u : Z) :
  add_day n (mk u (fixedZone c)) = mk (u + n * MS_PER_DAY) (fixedZone c).
Proof.
  unfold add_day. rewrite fromLocal_fixed, localTs_fixed. f_equal. lia.
Qed.

Lemma startOfHour_fixed (u : Z) :
  startOfHour (mk u (fixedZone c))
  = mk (u - (u + c * MS_PER_MINUTE) mod MS_PER_HOUR) (fixedZone c).
Proof.
  unfold startOfHour. rewrite fromLocal_fixed, localTs_fixed. f_equal. lia.
Qed.

Lemma startOfDay_fixed (u : Z) :
  startOfDay (mk u (fixedZone c))
  = mk (u - (u + c * MS_PER_MINUTE) mod MS_PER_DAY) (fixedZone c).
Proof.
  unfold startOfDay. rewrite fromLocal_fixed, localTs_fixed. f_equal. lia.
Qed.

Lemma add_fixed (n : Z) (unit : TimeUnit) (u : Z) :
  add n unit (mk u (fixedZone c)) = mk (u + n * step unit) (fixedZone c).
Proof. reflexivity. Qed.

End FixedOffset.

Section MarketClock.
Import Civil Dayjs.
Local Open Scope Z_scope.

(** The day-ahead cutoff checks of the API client, the dashboard and the
    two order pages give the same answer in a browser whose zone has a
    constant offset. *)
Theorem da_open_checks_agree (c now : Z) :
  OrderPage.isDATradingOpen (fixedZone c) now
  = Api.isDayAheadMarketOpen (fixedZone c) now
  /\ Dashboard.isMarketOpen (fixedZone c) now
     = Api.isDayAheadMarketOpen (fixedZone c) now
  /\ OrderManagement.isMarketOpen (fixedZone c) now DayAhead
     = Api.isDayAheadMarketOpen (fixedZone c) now.
Proof.
  split; [|split; reflexivity].
  unfold OrderPage.isDATradingOpen, Api.isDayAheadMarketOpen, dayjs.
  rewrite startOfDay_fixed, add_fixed. unfold isBefore, hour.
  cbn [valueOf]. rewrite localTs_fixed.
  destruct (Z.ltb_spec now
              (now - (now + c * MS_PER_MINUTE) mod MS_PER_DAY
               + 11 * step Hour));
    destruct (Z.ltb_spec (hour_of (now + c * MS_PER_MINUTE)) 11);
    try reflexivity; exfalso; unfold step in *; clock_unfold; div_mod_lia.
Qed.

(** [getTimeUntilCutoff] in a browser at a fixed offset: never negative,
    at most a day, at most 660 minutes while the market is open and at
    least 660 once it is closed; zero for the real-time market; the
    dashboard's copy returns the same number. *)
Theorem getTimeUntilCutoff_range (c now : Z) :
  let r := Api.getTimeUntilCutoff (fixedZone c) now DayAhead in
  0 <= r <= 1440
  /\ (Api.isDayAheadMarketOpen (fixedZone c) now = true -> r <= 660)
  /\ (Api.isDayAheadMarketOpen (fixedZone c) now = false -> 660 <= r)
  /\ Dashboard.getTimeUntilCutoff (fixedZone c) now = r
  /\ Api.getTimeUntilCutoff (fixedZone c) now RealTime = 0.
Proof.
  cbv zeta.
  assert (E : Dashboard.getTimeUntilCutoff (fixedZone c) now
              = Api.getTimeUntilCutoff (fixedZone c) now DayAhead)
    by reflexivity.
  rewrite E. clear E.
  unfold Api.getTimeUntilCutoff, Api.isDayAheadMarketOpen, dayjs.
  rewrite set_hour_fixed, set_minute_fixed, set_second_fixed, add_day_fixed.
  unfold diff_minute, hour. cbn [valueOf]. rewrite localTs_fixed.
  set (l := now + c * MS_PER_MINUTE).
  destruct (Z.geb_spec (hour_of l) 11) as [Hge | Hlt].
  - match goal with |- context [Z.quot ?a MS_PER_MINUTE] =>
      assert (Ha : 0 <= a) by (subst l; clock_unfold; div_mod_lia);
      rewrite (Z.quot_div_nonneg a MS_PER_MINUTE Ha) by reflexivity
    end.
    replace (hour_of l <? 11) with false
      by (symmetry; apply Z.ltb_ge; lia).
    repeat split; try discriminate; subst l; clock_unfold; div_mod_lia.
  - match goal with |- context [Z.quot ?a MS_PER_MINUTE] =>
      assert (Ha : 0 <= a) by (subst l; clock_unfold; div_mod_lia);
      rewrite (Z.quot_div_nonneg a MS_PER_MINUTE Ha) by reflexivity
    end.
    replace (hour_of l <? 11) with true
      by (symmetry; apply Z.ltb_lt; lia).
    repeat split; try discriminate; subst l; clock_unfold; div_mod_lia.
Qed.
End MarketClock.
Section NextSlot.
Import Civil Dayjs.
Local Open Scope Z_scope.

(** [getNextTradingSlot('real-time')] in a browser at a fixed offset:
    the result is a 5-minute boundary of the wall clock, less than a
    minute before and at most 4 minutes after now; it is after now only
    if the current minute is not a multiple of 5. *)
Theorem getNextTradingSlot_real_time (c now : Z) :
  let slot := Api.getNextTradingSlot (fixedZone c) now RealTime in
  let l := now + c * MS_PER_MINUTE in
  localTs slot mod (5 * MS_PER_MINUTE) = 0
  /\ now - MS_PER_MINUTE < valueOf slot <= now + 4 * MS_PER_MINUTE
  /\ (minute_of l mod 5 = 0 -> valueOf slot = now - l mod MS_PER_MINUTE)
  /\ (minute_of l mod 5 <> 0 -> now < valueOf slot).
Proof.
  cbv zeta. unfold Api.getNextTradingSlot, dayjs.
  rewrite set_minute_fixed, set_second_fixed, set_millisecond_fixed.
  rewrite localTs_fixed. unfold minute, ceil5. cbn [valueOf].
  rewrite localTs_fixed.
  set (l := now + c * MS_PER_MINUTE).
  assert (El : now = l - c * MS_PER_MINUTE) by (subst l; lia).
  rewrite El. clear El. generalize l. clear l now. intros l.
  clock_unfold. change (5 * 60000) with 300000.
  split; [|split; [|split]].
  - div_mod_lia.
  - div_mod_lia.
  - intros H. div_mod_lia.
  - intros H. div_mod_lia.
Qed.

(** [getNextTradingSlot('day-ahead')] in a browser at a fixed offset:
    always a whole wall-clock hour after now; before the cutoff it is the
    next hour, from the cutoff on it is 01:00 of the next day. *)
Theorem getNextTradingSlot_day_ahead (c now : Z) :
  let slot := Api.getNextTradingSlot (fixedZone c) now DayAhead in
  let l := now + c * MS_PER_MINUTE in
  now < valueOf slot
  /\ localTs slot mod MS_PER_HOUR = 0
  /\ (Api.isDayAheadMarketOpen (fixedZone c) now = true ->
      localTs slot = (l / MS_PER_HOUR + 1) * MS_PER_HOUR)
  /\ (Api.isDayAheadMarketOpen (fixedZone c) now = false ->
      localTs slot = (l / MS_PER_DAY + 1) * MS_PER_DAY + MS_PER_HOUR).
Proof.
  cbv zeta. unfold Api.getNextTradingSlot, Api.isDayAheadMarketOpen, dayjs.
  unfold hour. rewrite localTs_fixed.
  set (l := now + c * MS_PER_MINUTE).
  destruct (Z.ltb_spec (hour_of l) 11) as [Hlt | Hge].
  - rewrite add_fixed, startOfHour_fixed, localTs_fixed. cbn [valueOf].
    unfold step.
    assert (El : now = l - c * MS_PER_MINUTE) by (subst l; lia).
    rewrite El. clear El. generalize dependent l. clear now. intros l Hlt.
    clock_unfold.
    repeat split; try discriminate; try intros _; div_mod_lia.
  - rewrite add_day_fixed, startOfDay_fixed, add_fixed, localTs_fixed.
    cbn [valueOf]. unfold step.
    assert (El : now = l - c * MS_PER_MINUTE) by (subst l; lia).
    rewrite El. clear El. generalize dependent l. clear now. intros l Hge.
    clock_unfold.
    repeat split; try discriminate; try intros _; div_mod_lia.
Qed.
End NextSlot.
(* ================================================================== *)
(** ** More on the P&L calculation *)
(* ================================================================== *)

Section PnLMore.
Import JsNum Api Dashboard Settlement Samples.
Local Open Scope Q_scope.

(** [calculatePnL] returns one entry per order, in order, each carrying
    its order unchanged; the P&L is [null] exactly for the orders that
    are not filled. *)
Theorem calculatePnL_entries (orders : list Order) (daPrice : Q)
  (rtPrices : list Q) :
  map order (calculatePnL orders daPrice rtPrices) = orders
  /\ List.length (calculatePnL orders daPrice rtPrices) = List.length orders
  /\ forall e, In e (calculatePnL orders daPrice rtPrices) ->
               (pnl e = None <-> status (order e) <> Filled).
Proof.
  unfold calculatePnL. split; [|split].
  - rewrite map_map. rewrite <- (map_id orders) at 2.
    apply map_ext. intros o. unfold pnlOfOrder.
    destruct (negb _); reflexivity.
  - apply length_map.
  - intros e He. apply in_map_iff in He. destruct He as (o & <- & _).
    unfold pnlOfOrder. destruct (status o) eqn:Hs; cbn [negb Status_eqb];
      cbn [order pnl]; rewrite ?Hs; split; intros H;
      try discriminate; try congruence; try reflexivity.
Qed.




End PnLMore.
(* ================================================================== *)
(** ** More on the slot caps *)
(* ================================================================== *)

Section SlotCapMore.
Import Api Samples.
Local Open Scope string_scope.
Local Open Scope Z_scope.

(** Counts add up over concatenated order lists, so adding orders never
    frees capacity: a slot that is full stays full. *)
Theorem validateOrderLimits_app (m : Market) (slot : string)
  (l l' : list Order) :
  currentCount (validateOrderLimits m slot (l ++ l'))
  = currentCount (validateOrderLimits m slot l)
    + currentCount (validateOrderLimits m slot l')
  /\ remaining (validateOrderLimits m slot (l ++ l'))
     <= remaining (validateOrderLimits m slot l)
  /\ (isValid (validateOrderLimits m slot l) = false ->
      isValid (validateOrderLimits m slot (l ++ l')) = false).
Proof.
  unfold validateOrderLimits. cbn [currentCount remaining isValid].
  rewrite filter_app, length_app, Nat2Z.inj_add.
  repeat split; try lia.
  rewrite !Z.ltb_ge. lia.
Qed.

(** The result depends only on how many orders are for the slot, not on
    their order in the list. *)
Theorem validateOrderLimits_permutation (m : Market) (slot : string)
  (l l' : list Order) :
  Permutation l l' ->
  validateOrderLimits m slot l = validateOrderLimits m slot l'.
Proof.
  intros HP. unfold validateOrderLimits.
  assert (E : List.length (filter (inSlot m slot) l)
              = List.length (filter (inSlot m slot) l')).
  { induction HP; simpl.
    - reflexivity.
    - destruct (inSlot m slot x); simpl; congruence.
    - destruct (inSlot m slot x), (inSlot m slot y); reflexivity.
    - congruence. }
  rewrite E. reflexivity.
Qed.

Lemma validateOrderLimits_permutation_witness :
  validateOrderLimits DayAhead "2025-08-15T14:00:00Z" three_orders
  = validateOrderLimits DayAhead "2025-08-15T14:00:00Z"
      [pending_rt; pending_da "ORDER_2"; pending_da "ORDER_1"].
Proof.
  apply (validateOrderLimits_permutation DayAhead "2025-08-15T14:00:00Z").
  unfold three_orders.
  apply Permutation_sym.
  apply (Permutation_trans
           (l' := [pending_rt; pending_da "ORDER_1"; pending_da "ORDER_2"])).
  - apply perm_skip. apply perm_swap.
  - apply perm_swap.
Defined.

(** Only the market and slot fields of the existing orders matter: an
    order keeps counting towards the cap whatever its status becomes. *)
Theorem validateOrderLimits_ignores_status (m : Market) (slot : string)
  (l l' : list Order) :
  Forall2 (fun o o' => market o = market o'
                       /\ hour_start o = hour_start o'
                       /\ time_slot o = time_slot o') l l' ->
  validateOrderLimits m slot l = validateOrderLimits m slot l'.
Proof.
  intros HF. unfold validateOrderLimits.
  assert (E : List.length (filter (inSlot m slot) l)
              = List.length (filter (inSlot m slot) l')).
  { induction HF as [|o o' l l' (Hm & Hh & Ht) _ IH]; simpl.
    - reflexivity.
    - assert (Ein : inSlot m slot o = inSlot m slot o')
        by (unfold inSlot; rewrite Hm, Hh, Ht; reflexivity).
      rewrite Ein. destruct (inSlot m slot o'); simpl; congruence. }
  rewrite E. reflexivity.
Qed.

Lemma validateOrderLimits_ignores_status_witness :
  validateOrderLimits DayAhead "2025-08-15T14:00:00Z" three_orders
  = validateOrderLimits DayAhead "2025-08-15T14:00:00Z" three_orders_matched.
Proof.
  apply (validateOrderLimits_ignores_status DayAhead "2025-08-15T14:00:00Z").
  repeat constructor.
Defined.

End SlotCapMore.

(* ================================================================== *)
(** ** More on the page's order store *)
(* ================================================================== *)

Section StoreMore.
Import OrderManagement Samples.
Local Open Scope string_scope.
Local Open Scope Z_scope.

(** Deleting is idempotent, deletions commute, deleting an id that no
    order carries changes nothing, and the store never grows. *)
Theorem handleDeleteOrder_algebra (a b : string) (store : list Order) :
  handleDeleteOrder a (handleDeleteOrder a store) = handleDeleteOrder a store
  /\ handleDeleteOrder a (handleDeleteOrder b store)
     = handleDeleteOrder b (handleDeleteOrder a store)
  /\ ((forall o, In o store -> id o <> a) -> handleDeleteOrder a store = store)
  /\ (List.length (handleDeleteOrder a store) <= List.length store)%nat.
Proof.
  unfold handleDeleteOrder. split; [|split; [|split]].
  - induction store as [|o s IH]; simpl; [reflexivity|].
    destruct (negb (id o =? a)%string) eqn:E; simpl; rewrite ?E, IH;
      reflexivity.
  - induction store as [|o s IH]; simpl; [reflexivity|].
    destruct (negb (id o =? a)%string) eqn:Ea,
             (negb (id o =? b)%string) eqn:Eb; simpl;
      rewrite ?Ea, ?Eb, IH; reflexivity.
  - intros H. induction store as [|o s IH]; simpl; [reflexivity|].
    assert (Ho : (id o =? a)%string = false)
      by (apply String.eqb_neq, H; left; reflexivity).
    rewrite Ho. simpl. f_equal. apply IH. intros o' Hin. apply H.
    right. exact Hin.
  - apply filter_length_le.
Qed.

Lemma filteredOrders_In (orders : list Order) (fs fm : string) (o : Order) :
  In o (filteredOrders orders fs fm)
  <-> In o orders
      /\ (fs = "all" \/ statusName (status o) = fs)
      /\ (fm = "all" \/ marketName (market o) = fm).
Proof.
  unfold filteredOrders. rewrite filter_In. cbv zeta.
  rewrite andb_true_iff, !orb_true_iff, !String.eqb_eq. tauto.
Qed.

(** The table filter: with both selections on "all" every order is
    shown; otherwise exactly the orders with the selected status and
    market, in their original order; a selection that names no status
    shows nothing. *)
Theorem filteredOrders_selection (orders : list Order) (fs fm : string) :
  filteredOrders orders "all" "all" = orders
  /\ (forall o, In o (filteredOrders orders fs fm)
                <-> In o orders
                    /\ (fs = "all" \/ statusName (status o) = fs)
                    /\ (fm = "all" \/ marketName (market o) = fm))
  /\ filteredOrders (filteredOrders orders fs "all") "all" fm
     = filteredOrders orders fs fm
  /\ (fs <> "all" -> fs <> "pending" -> fs <> "filled" -> fs <> "rejected" ->
      filteredOrders orders fs fm = []).
Proof.
  split; [|split; [|split]].
  - unfold filteredOrders. induction orders as [|o s IH];
      [reflexivity|].
    cbn [filter]. rewrite IH.
    change ("all" =? "all")%string with true. reflexivity.
  - intros o. apply filteredOrders_In.
  - unfold filteredOrders. cbv zeta.
    change ("all" =? "all")%string with true. cbn [orb andb].
    induction orders as [|o s IH]; [reflexivity|].
    cbn [filter]. rewrite !andb_true_r.
    destruct ((fs =? "all") || (statusName (status o) =? fs))%string;
      cbn [filter andb]; rewrite ?andb_true_r, ?IH; [|reflexivity].
    destruct ((fm =? "all") || (marketName (market o) =? fm))%string;
      reflexivity.
  - intros H1 H2 H3 H4.
    destruct (filteredOrders orders fs fm) as [|o rest] eqn:E;
      [reflexivity|].
    assert (Hin : In o (filteredOrders orders fs fm))
      by (rewrite E; left; reflexivity).
    apply filteredOrders_In in Hin. destruct Hin as (_ & [Hs | Hs] & _).
    + contradiction.
    + destruct (status o); simpl in Hs; congruence.
Qed.

Lemma count_partition_status (orders : list Order) :
  Z.of_nat (List.length orders)
  = countWhere (fun o => Status_eqb (status o) Pending) orders
    + countWhere (fun o => Status_eqb (status o) Filled) orders
    + countWhere (fun o => Status_eqb (status o) Rejected) orders.
Proof.
  unfold countWhere. induction orders as [|o s IH]; [reflexivity|].
  cbn [filter]. destruct (status o); cbn [Status_eqb List.length];
    rewrite ?Nat2Z.inj_succ; cbn [List.length] in IH; lia.
Qed.

Lemma count_partition_market (orders : list Order) :
  Z.of_nat (List.length orders)
  = countWhere (fun o => Market_eqb (market o) DayAhead) orders
    + countWhere (fun o => Market_eqb (market o) RealTime) orders.
Proof.
  unfold countWhere. induction orders as [|o s IH]; [reflexivity|].
  cbn [filter]. destruct (market o); cbn [Market_eqb List.length];
    rewrite ?Nat2Z.inj_succ; lia.
Qed.

(** The summary tiles are consistent: the three status counts add up to
    the total, and so do the two market counts; putting one more order
    in front of the store adds 1 to the total, and leaves the P&L tile
    as it is when that order has no P&L yet. *)
Theorem orderSummary_consistent (orders : list Order) (o : Order) :
  let s := orderSummary orders in
  total s = pending s + filled s + rejected s
  /\ total s = dayAheadOrders s + realTimeOrders s
  /\ total (orderSummary (o :: orders)) = total s + 1
  /\ (pnl o = None ->
      totalPnL (orderSummary (o :: orders)) = totalPnL s).
Proof.
  cbv zeta. unfold orderSummary.
  cbn [total pending filled rejected dayAheadOrders realTimeOrders
       totalPnL].
  split; [apply count_partition_status|].
  split; [apply count_partition_market|].
  split; [simpl List.length; lia|].
  intros Hp.
  assert (E : pnlOrZero o = Binary64.of_Z 0)
    by (unfold pnlOrZero; rewrite Hp; reflexivity).
  cbn [fold_left]. rewrite E. reflexivity.
Qed.

Lemma orderSummary_consistent_witness :
  total (orderSummary (Samples.pending_row :: Samples.two_rows)) = 3
  /\ totalPnL (orderSummary (Samples.pending_row :: Samples.two_rows))
     = totalPnL (orderSummary Samples.two_rows).
Proof.
  destruct (orderSummary_consistent Samples.two_rows Samples.pending_row)
    as (_ & _ & Htotal & Hpnl).
  split; [exact Htotal | apply Hpnl; reflexivity].
Defined.

End StoreMore.
Section SubmitMore.
Import OrderManagement Samples.
Local Open Scope string_scope.
Local Open Scope Z_scope.

Lemma handleSubmitOrder_Submitted (host : Dayjs.Zone) (now later : Z)
  (st : PageState) (pos : option Position) (values : SubmitValues)
  (prev store : list Order) :
  handleSubmitOrder host now later st pos values prev = Submitted store ->
  handleSubmitOrder_guards st (isMarketOpen host now DayAhead) = GuardsPassed
  /\ exists o, store = o :: prev
       /\ id o = newOrderId (orders st)
       /\ market o = selectedMarket st
       /\ status o = Pending
       /\ hour o = match selectedMarket st with
                   | DayAhead => v_hour values
                   | RealTime => hourOfTimeSlot (v_timeSlot values)
                   end
       /\ timeSlot o = match selectedMarket st with
                       | DayAhead => None
                       | RealTime => v_timeSlot values
                       end.
Proof.
  unfold handleSubmitOrder.
  destruct (handleSubmitOrder_guards st _); try discriminate.
  destruct (match v_side values, pos with
            | Sell, Some _ => _ | _, _ => false end); try discriminate.
  intros H. inversion H. split; [reflexivity|].
  eexists. split; [reflexivity|]. repeat split.
Qed.

Lemma guards_passed (st : PageState) (daOpen : bool) :
  handleSubmitOrder_guards st daOpen = GuardsPassed ->
  (selectedMarket st = DayAhead -> daOpen = true)
  /\ currentSlotOrders st < maxOrdersPerSlot (selectedMarket st).
Proof.
  unfold handleSubmitOrder_guards.
  destruct (Market_eqb (selectedMarket st) DayAhead && negb daOpen) eqn:E1;
    [discriminate|].
  destruct (currentSlotOrders st >=? maxOrdersPerSlot (selectedMarket st))
    eqn:E2; [discriminate|].
  intros _. split.
  - intros Hm. rewrite Hm in E1. simpl in E1.
    destruct daOpen; [reflexivity | discriminate].
  - rewrite Z.geb_leb in E2. apply Z.leb_gt in E2. exact E2.
Qed.

(** An accepted submission obeys the page's three rules and adds one
    pending order in front of the store: a day-ahead order is accepted
    only before the browser's 11:00, the selected slot is below its cap,
    and a sell does not exceed the projected net position (taken as 0
    when negative) whenever a position is loaded. *)
Theorem handleSubmitOrder_accepted (host : Dayjs.Zone) (now later : Z)
  (st : PageState) (pos : option Position) (values : SubmitValues)
  (prev store : list Order) :
  handleSubmitOrder host now later st pos values prev = Submitted store ->
  (selectedMarket st = DayAhead -> isMarketOpen host now DayAhead = true)
  /\ currentSlotOrders st < maxOrdersPerSlot (selectedMarket st)
  /\ (forall p, v_side values = Sell -> pos = Some p ->
                (v_quantity values <= projected_net_position p
                 \/ v_quantity values <= 0)%Q)
  /\ exists o, store = o :: prev
       /\ status o = Pending
       /\ market o = selectedMarket st
       /\ side o = v_side values
       /\ quantity o = v_quantity values
       /\ limitPrice o = v_limitPrice values
       /\ fillPrice o = None.
Proof.
  intros H.
  destruct (handleSubmitOrder_Submitted _ _ _ _ _ _ _ _ H) as (Hg & _).
  destruct (guards_passed _ _ Hg) as (Hopen & Hcap).
  split; [exact Hopen|]. split; [exact Hcap|].
  unfold handleSubmitOrder in H. rewrite Hg in H. split.
  - intros p Hs Hp. rewrite Hs, Hp in H.
    destruct (Qle_bool (v_quantity values) _) eqn:E; [|discriminate].
    apply Qle_bool_iff in E.
    destruct (Qle_bool 0 (projected_net_position p)); auto.
  - destruct (match v_side values, pos with
              | Sell, Some _ => _ | _, _ => false end); [discriminate|].
    inversion H. eexists. split; [reflexivity|]. repeat split.
Qed.

Lemma handleSubmitOrder_accepted_witness :
  exists store,
    handleSubmitOrder Dayjs.America_New_York early_morning
      (early_morning + 800) page_two_rows (Some long_position)
      sell_values two_rows = Submitted store
    /\ currentSlotOrders page_two_rows
       < maxOrdersPerSlot (selectedMarket page_two_rows)
    /\ exists o, store = o :: two_rows /\ status o = Pending.
Proof.
  eexists. split; [vm_compute; reflexivity|].
  pose proof (handleSubmitOrder_accepted Dayjs.America_New_York
                early_morning (early_morning + 800) page_two_rows
                (Some long_position) sell_values two_rows _
                ltac:(vm_compute; reflexivity)) as (_ & Hcap & _ & o & Ho & Hs & _).
  split; [exact Hcap|]. exists o. split; [exact Ho | exact Hs].
Defined.

(** When the form's slot is the one held in the page state, an accepted
    submission leaves that slot within its cap: the count goes up by one
    and is still at most 10 (day-ahead) or 50 (real-time). *)
Theorem handleSubmitOrder_keeps_cap (host : Dayjs.Zone) (now later : Z)
  (st : PageState) (pos : option Position) (values : SubmitValues)
  (store : list Order) (slot : string) :
  handleSubmitOrder host now later st pos values (orders st)
  = Submitted store ->
  slot <> "" ->
  match selectedMarket st with
  | DayAhead => selectedHour st = slot /\ v_hour values = slot
  | RealTime => selectedTimeSlot st = slot /\ v_timeSlot values = Some slot
  end ->
  getOrdersPerSlot store (selectedMarket st) slot
  = getOrdersPerSlot (orders st) (selectedMarket st) slot + 1
  /\ getOrdersPerSlot store (selectedMarket st) slot
     <= maxOrdersPerSlot (selectedMarket st).
Proof.
  intros H Hne Hsync.
  destruct (handleSubmitOrder_Submitted _ _ _ _ _ _ _ _ H)
    as (Hg & o & -> & _ & Hm & _ & Hh & Hts).
  destruct (guards_passed _ _ Hg) as (_ & Hcap).
  assert (Hnon : nonEmpty slot = true)
    by (destruct slot; [congruence | reflexivity]).
  assert (Hcount : getOrdersPerSlot (o :: orders st) (selectedMarket st) slot
                   = getOrdersPerSlot (orders st) (selectedMarket st) slot + 1).
  { unfold getOrdersPerSlot.
    destruct (selectedMarket st) eqn:Em; destruct Hsync as (Hsel & Hv);
      cbn [filter]; rewrite Hm; cbn [Market_eqb andb].
    - rewrite Hh, Hv, String.eqb_refl. cbn [List.length]. lia.
    - rewrite Hts, Hv. cbn [opt_string_eqb]. rewrite String.eqb_refl.
      cbn [List.length]. lia. }
  split; [exact Hcount|]. rewrite Hcount.
  unfold currentSlotOrders in Hcap.
  destruct (selectedMarket st) eqn:Em; destruct Hsync as (Hsel & Hv);
    rewrite Hsel, Hnon in Hcap; lia.
Qed.

Lemma handleSubmitOrder_keeps_cap_witness :
  exists store,
    handleSubmitOrder Dayjs.America_New_York early_morning
      (early_morning + 800) page_two_rows (Some long_position)
      sell_values two_rows = Submitted store
    /\ getOrdersPerSlot store DayAhead "14:00"
       = getOrdersPerSlot two_rows DayAhead "14:00" + 1
    /\ getOrdersPerSlot store DayAhead "14:00" <= 10.
Proof.
  eexists. split; [vm_compute; reflexivity|].
  apply (handleSubmitOrder_keeps_cap Dayjs.America_New_York early_morning
           (early_morning + 800) page_two_rows (Some long_position)
           sell_values _ "14:00").
  - vm_compute. reflexivity.
  - discriminate.
  - split; reflexivity.
Defined.

(** Order ids are numbered from the length of the store.  If the store
    already holds an order with the next number (as it does once an
    earlier order has been deleted), the new order gets the same id, and
    deleting by that id removes both. *)
Theorem handleSubmitOrder_reuses_id (host : Dayjs.Zone) (now later : Z)
  (st : PageState) (pos : option Position) (values : SubmitValues)
  (prev store : list Order) (old : Order) :
  handleSubmitOrder host now later st pos values prev = Submitted store ->
  In old prev ->
  id old = newOrderId (orders st) ->
  exists new,
    store = new :: prev
    /\ id new = id old
    /\ status new = Pending
    /\ handleDeleteOrder (id new) store = handleDeleteOrder (id old) prev
    /\ ~ In old (clickDelete new store).
Proof.
  intros H Hin Hid.
  destruct (handleSubmitOrder_Submitted _ _ _ _ _ _ _ _ H)
    as (_ & o & -> & Ho & _ & Hs & _).
  exists o. split; [reflexivity|]. split; [congruence|].
  split; [exact Hs|].
  assert (E : id o = id old) by congruence.
  split.
  - unfold handleDeleteOrder. cbn [filter].
    rewrite String.eqb_refl. cbn [negb]. rewrite E. reflexivity.
  - unfold clickDelete, actionsColumn. rewrite Hs. cbn [Status_eqb].
    rewrite handleDeleteOrder_In. intros (_ & Hne). congruence.
Qed.

Lemma handleSubmitOrder_reuses_id_witness :
  exists store new,
    handleSubmitOrder Dayjs.America_New_York early_morning
      (early_morning + 800) page_two_rows (Some long_position)
      sell_values two_rows = Submitted store
    /\ store = new :: two_rows
    /\ id new = id pending_row
    /\ ~ In pending_row (clickDelete new store).
Proof.
  eexists.
  destruct (handleSubmitOrder_reuses_id Dayjs.America_New_York
              early_morning (early_morning + 800) page_two_rows
              (Some long_position) sell_values two_rows _ pending_row
              ltac:(vm_compute; reflexivity)
              ltac:(right; left; reflexivity)
              ltac:(vm_compute; reflexivity))
    as (new & Hstore & Hid & _ & _ & Hdel).
  exists new. split; [vm_compute; reflexivity|].
  split; [exact Hstore|]. split; [exact Hid | exact Hdel].
Defined.
End SubmitMore.
(* ================================================================== *)
(** ** Real-time slot lists *)
(* ================================================================== *)

Section SlotLists.
Import Civil Dayjs.
Local Open Scope Z_scope.

Variables c now : Z.

Let d0 : Z :=
  OrderManagement.diffMs (OrderManagement.realTimeSlot (fixedZone c) now 0).

Lemma realTimeSlot_diffMs (i : Z) :
  OrderManagement.diffMs (OrderManagement.realTimeSlot (fixedZone c) now i)
  = d0 + 300000 * i.
Proof.
  unfold d0, OrderManagement.realTimeSlot. cbn [OrderManagement.diffMs].
  unfold dayjs. rewrite !setMinutes_fixed. cbn [valueOf].
  clock_unfold. lia.
Qed.

Lemma realTimeSlot_first_diffMs : -60000 < d0 <= 240000.
Proof.
  unfold d0, OrderManagement.realTimeSlot. cbn [OrderManagement.diffMs].
  unfold dayjs. rewrite !setMinutes_fixed. cbn [valueOf].
  unfold minute, ceil5. rewrite localTs_fixed.
  set (l := now + c * MS_PER_MINUTE).
  assert (El : now = l - c * MS_PER_MINUTE) by (subst l; lia).
  rewrite El. clear El. generalize l. clear l. intros l.
  clock_unfold. div_mod_lia.
Qed.

Lemma realTimeSlot_disabled (i : Z) :
  OrderManagement.disabled (OrderManagement.realTimeSlot (fixedZone c) now i)
  = (d0 + 300000 * i <? 120000).
Proof.
  rewrite <- realTimeSlot_diffMs. reflexivity.
Qed.

(** [generateRealTimeSlots] in a browser at a fixed offset: 12 slots
    five minutes apart, the first one starting less than a minute ago
    or within the next 4 minutes; only the first slot can be disabled,
    and the first enabled slot, the one selected automatically, starts
    between 2 and 7 minutes from now. *)
Theorem generateRealTimeSlots_schedule :
  let slots := OrderManagement.generateRealTimeSlots (fixedZone c) now in
  List.length slots = 12%nat
  /\ map OrderManagement.diffMs slots
     = map (fun i => d0 + 300000 * Z.of_nat i) (seq 0 12)
  /\ -60000 < d0 <= 240000
  /\ Forall (fun s => OrderManagement.disabled s = false) (tl slots)
  /\ exists s, OrderManagement.nextAvailableSlot slots = Some s
               /\ 120000 <= OrderManagement.diffMs s < 420000.
Proof.
  cbv zeta. pose proof realTimeSlot_first_diffMs as Hd0.
  unfold OrderManagement.generateRealTimeSlots.
  split; [reflexivity|]. split.
  { rewrite map_map. apply map_ext. intros i. apply realTimeSlot_diffMs. }
  split; [exact Hd0|]. split.
  { cbn [seq map tl].
    repeat (constructor;
            [rewrite realTimeSlot_disabled; apply Z.ltb_ge; lia|]).
    constructor. }
  cbn [seq map]. unfold OrderManagement.nextAvailableSlot. cbn [find].
  rewrite !realTimeSlot_disabled.
  destruct (Z.ltb_spec (d0 + 300000 * Z.of_nat 0) 120000) as [Hlt | Hge];
    cbn [negb].
  - replace (d0 + 300000 * Z.of_nat 1 <? 120000) with false
      by (symmetry; apply Z.ltb_ge; lia).
    cbn [negb]. eexists. split; [reflexivity|].
    rewrite realTimeSlot_diffMs. lia.
  - eexists. split; [reflexivity|]. rewrite realTimeSlot_diffMs. lia.
Qed.

Lemma rtSlotOption_times (i : Z) :
  let s := OrderPage.rtSlotOption (fixedZone c) now i in
  let l := now + c * MS_PER_MINUTE in
  OrderPage.intervalStart s
  = now - l mod MS_PER_HOUR + (floor5 (minute_of l) + i * 5) * MS_PER_MINUTE
  /\ OrderPage.intervalEnd s = OrderPage.intervalStart s + 5 * MS_PER_MINUTE
  /\ OrderPage.settlementTime s
     = OrderPage.intervalEnd s + 30 * MS_PER_SECOND.
Proof.
  cbv zeta. unfold OrderPage.rtSlotOption.
  cbn [OrderPage.intervalStart OrderPage.intervalEnd OrderPage.settlementTime].
  unfold dayjs, setSeconds.
  rewrite setMinutes_fixed, set_minute_fixed, set_second_fixed.
  cbn [valueOf]. unfold minute. rewrite !localTs_fixed.
  set (l := now + c * MS_PER_MINUTE).
  assert (El : now = l - c * MS_PER_MINUTE) by (subst l; lia).
  rewrite El. clear El. generalize l. clear l. intros l.
  unfold floor5. clock_unfold.
  repeat split; div_mod_lia.
Qed.

(** [getNextRTSlots] in a browser at a fixed offset: 12 intervals of
    five minutes that follow one another without gap, on 5-minute
    boundaries of the wall clock, each settling 30 seconds after its
    end; the first one ends more than 29 seconds from now and has
    started, or starts within the next 30 seconds. *)
Theorem getNextRTSlots_intervals :
  let slots := OrderPage.getNextRTSlots (fixedZone c) now in
  List.length slots = 12%nat
  /\ (exists first,
         map OrderPage.intervalStart slots
         = map (fun i => first + 5 * MS_PER_MINUTE * Z.of_nat i) (seq 0 12)
         /\ (first + c * MS_PER_MINUTE) mod (5 * MS_PER_MINUTE) = 0
         /\ first < now + 30 * MS_PER_SECOND
         /\ now + 29 * MS_PER_SECOND < first + 5 * MS_PER_MINUTE)
  /\ Forall (fun s =>
               OrderPage.intervalEnd s
               = OrderPage.intervalStart s + 5 * MS_PER_MINUTE
               /\ OrderPage.settlementTime s
                  = OrderPage.intervalEnd s + 30 * MS_PER_SECOND
               /\ OrderPage.slot_disabled s = false) slots.
Proof.
  cbv zeta. unfold OrderPage.getNextRTSlots.
  set (start := if _ <? 30 then 1 else 0).
  split; [reflexivity|]. split.
  - exists (OrderPage.intervalStart
              (OrderPage.rtSlotOption (fixedZone c) now start)).
    split; [|].
    + rewrite map_map. apply map_ext. intros i.
      destruct (rtSlotOption_times (start + Z.of_nat i)) as (-> & _).
      destruct (rtSlotOption_times start) as (-> & _).
      clock_unfold. lia.
    + destruct (rtSlotOption_times start) as (-> & _).
      subst start. unfold dayjs, minute, second. rewrite localTs_fixed.
      set (l := now + c * MS_PER_MINUTE).
      assert (El : now = l - c * MS_PER_MINUTE) by (subst l; lia).
      rewrite El. clear El. generalize l. clear l. intros l.
      unfold floor5. clock_unfold. change (5 * 60000) with 300000.
      destruct (Z.ltb_spec
                  ((l mod 3600000 / 60000 / 5 * 5 + 5
                    - l mod 3600000 / 60000) * 60
                   - l mod 60000 / 1000) 30);
        repeat split; div_mod_lia.
  - apply Forall_forall. intros s Hs. apply in_map_iff in Hs.
    destruct Hs as (i & <- & _).
    destruct (rtSlotOption_times (start + Z.of_nat i)) as (_ & He & Hst).
    repeat split; assumption.
Qed.

End SlotLists.
(* ================================================================== *)
(** ** More on the Eastern-time helpers *)
(* ================================================================== *)

Section EasternMore.
Import Civil Text Range Dayjs Timezone Samples.
Local Open Scope string_scope.
Local Open Scope Z_scope.

(** In a steady browser, the Eastern date and time strings of an
    instant parse back to its wall-clock value. *)
Lemma parse_reading (host : Zone) (u : Z) :
  RULE_START <= u < RULE_END ->
  u mod MS_PER_MINUTE = 0 ->
  steady host u ->
  parseLocal (date (utcToEdt host (iso u)) ++ " "
              ++ time (utcToEdt host (iso u)))
  = Some (u + America_New_York u * MS_PER_MINUTE).
Proof.
  intros Hr Hmin Hs.
  assert (Hsec : u mod MS_PER_SECOND = 0)
    by (unfold MS_PER_MINUTE, MS_PER_SECOND in *; div_mod_lia).
  assert (Hu : LOCAL_MIN <= u < LOCAL_MAX)
    by (unfold RULE_START, RULE_END, LOCAL_MIN, LOCAL_MAX in *; lia).
  unfold utcToEdt. rewrite (parseIso_iso u Hu Hsec).
  cbn [option_map date time format_YYYY_MM_DD format_HH_mm
       format_YYYY_MM_DD_HH_mm].
  unfold MARKET_TIMEZONE. rewrite (tzIn_steady host u Hs).
  set (d := tz (mk u UTC) America_New_York).
  assert (Hl : localTs d = u + America_New_York u * MS_PER_MINUTE)
    by reflexivity.
  rewrite <- Hl. apply parseLocal_format.
  - rewrite Hl. apply New_York_local_range, Hr.
  - rewrite Hl. destruct (New_York_offset u) as [-> | ->];
      unfold EDT, EST, MS_PER_MINUTE in *; div_mod_lia.
Qed.

(** In a steady browser, [dayjs.tz] on the Eastern reading of [u]
    finds the instant the search settles on. *)
Lemma tz_parse_reading (host : Zone) (now u : Z) :
  RULE_START <= u < RULE_END ->
  u mod MS_PER_MINUTE = 0 ->
  steady host u ->
  exists o,
    tz_parse host now
      (date (utcToEdt host (iso u)) ++ " " ++ time (utcToEdt host (iso u)))
      MARKET_TIMEZONE
    = Some o
    /\ zonedValueOf host o
       = fst (fixOffset (u + America_New_York u * MS_PER_MINUTE)
                (America_New_York now) America_New_York)
    /\ zonedValueOf host (zonedAdd 5 Minute o)
       = fst (fixOffset (u + America_New_York u * MS_PER_MINUTE)
                (America_New_York now) America_New_York)
         + 5 * MS_PER_MINUTE.
Proof.
  intros Hr Hmin Hs.
  apply (tz_parse_steady host now u _ _ (parse_reading host u Hr Hmin Hs) Hs).
  destruct (New_York_offset u) as [-> | ->];
    unfold EDT, EST, MS_PER_HOUR, MS_PER_MINUTE; lia.
Qed.

(** Inside the repeated hour the search settles on the reading's first
    occurrence when the first guess is the daylight offset and on its
    second occurrence when it is the standard offset. *)
Lemma fixOffset_New_York_repeated (now u : Z) :
  in_repeated_hour u = true ->
  fst (fixOffset (u + America_New_York u * MS_PER_MINUTE)
         (America_New_York now) America_New_York)
  = if is_dst now
    then (if is_dst u then u else u - MS_PER_HOUR)
    else (if is_dst u then u + MS_PER_HOUR else u).
Proof.
  unfold in_repeated_hour, fixOffset, America_New_York.
  destruct (is_dst u) eqn:Hu; destruct (is_dst now) eqn:Hn; intros Hrep.
  - replace (u + EDT * MS_PER_MINUTE - EDT * MS_PER_MINUTE) with u by lia.
    rewrite Hu. reflexivity.
  - replace (u + EDT * MS_PER_MINUTE - EST * MS_PER_MINUTE)
      with (u + MS_PER_HOUR)
      by (unfold EDT, EST, MS_PER_MINUTE, MS_PER_HOUR; lia).
    apply negb_true_iff in Hrep. rewrite Hrep. reflexivity.
  - replace (u + EST * MS_PER_MINUTE - EDT * MS_PER_MINUTE)
      with (u - MS_PER_HOUR)
      by (unfold EDT, EST, MS_PER_MINUTE, MS_PER_HOUR; lia).
    rewrite Hrep. reflexivity.
  - replace (u + EST * MS_PER_MINUTE - EST * MS_PER_MINUTE) with u by lia.
    rewrite Hu. reflexivity.
Qed.

(** For a reading in the hour that occurs twice when the clocks go
    back (instants from 2007 to the end of 9999, at whole minutes, in a
    steady browser), the result of [edtToUtc] depends on when the call
    is made: a call made during daylight time returns the first
    occurrence, a call made during standard time the second, one hour
    later. *)
Theorem edtToUtc_repeated_hour (host : Zone) (now u : Z) :
  RULE_START <= u < RULE_END ->
  u mod MS_PER_MINUTE = 0 ->
  in_repeated_hour u = true ->
  steady host u ->
  let first := if is_dst u then u else u - MS_PER_HOUR in
  edtToUtc host now (date (utcToEdt host (iso u)))
    (time (utcToEdt host (iso u)))
  = iso (if is_dst now then first else first + MS_PER_HOUR).
Proof.
  intros Hr Hmin Hrep Hs. cbv zeta.
  destruct (tz_parse_reading host now u Hr Hmin Hs) as (o & Hp & Hv & _).
  unfold edtToUtc. rewrite Hp. cbn [option_map]. unfold zonedUtc.
  rewrite Hv, (fixOffset_New_York_repeated now u Hrep).
  rewrite format_utc_instant.
  f_equal. destruct (is_dst now), (is_dst u); lia.
Qed.

Lemma edtToUtc_repeated_hour_witness :
  edtToUtc UTC summer_morning (date (utcToEdt UTC (iso second_0130)))
    (time (utcToEdt UTC (iso second_0130)))
  = iso (if is_dst summer_morning
         then (if is_dst second_0130 then second_0130
               else second_0130 - MS_PER_HOUR)
         else (if is_dst second_0130 then second_0130
               else second_0130 - MS_PER_HOUR) + MS_PER_HOUR).
Proof.
  apply (edtToUtc_repeated_hour UTC summer_morning second_0130).
  - unfold RULE_START, RULE_END, second_0130. lia.
  - reflexivity.
  - vm_compute. reflexivity.
  - split; [reflexivity|]. split; [vm_compute; split; discriminate|].
    intros v _. reflexivity.
Defined.

Lemma iso_injective (u v : Z) :
  LOCAL_MIN <= u < LOCAL_MAX -> LOCAL_MIN <= v < LOCAL_MAX ->
  u mod MS_PER_SECOND = 0 -> v mod MS_PER_SECOND = 0 ->
  iso u = iso v -> u = v.
Proof.
  intros Hu Hv Hsu Hsv E.
  pose proof (parseIso_iso u Hu Hsu) as Pu.
  pose proof (parseIso_iso v Hv Hsv) as Pv.
  rewrite E in Pu. congruence.
Qed.

(** [formatRTTimeSlot] and [formatDAHour] undo [utcToEdt]: from the
    Eastern date and time of an instant outside the repeated hour (at
    a whole minute, from 2007 to the end of 9999, in a steady browser)
    they give back that instant, and the interval end is the distinct
    timestamp five minutes later. *)
Theorem formatRTTimeSlot_of_reading (host : Zone) (now u : Z) :
  RULE_START <= u < RULE_END - 5 * MS_PER_MINUTE ->
  u mod MS_PER_MINUTE = 0 ->
  in_repeated_hour u = false ->
  steady host u ->
  let parts := utcToEdt host (iso u) in
  formatRTTimeSlot host now (date parts) (time parts)
  = {| hourStartUtc := iso u;
       timeSlotUtc := iso u;
       intervalEndUtc := iso (u + 5 * MS_PER_MINUTE) |}
  /\ iso (u + 5 * MS_PER_MINUTE) <> iso u
  /\ formatDAHour host now (date parts) (time parts) = iso u.
Proof.
  intros Hr Hmin Hrep Hs. cbv zeta.
  assert (Hr' : RULE_START <= u < RULE_END)
    by (unfold MS_PER_MINUTE in *; lia).
  destruct (tz_parse_reading host now u Hr' Hmin Hs) as (o & Hp & Hv & Hv5).
  rewrite (fixOffset_New_York now u Hrep) in Hv, Hv5.
  unfold formatRTTimeSlot, formatDAHour. rewrite Hp.
  cbn [option_map]. unfold zonedUtc. rewrite Hv, Hv5.
  rewrite !format_utc_instant.
  split; [reflexivity|]. split; [|reflexivity].
  intros E. apply iso_injective in E.
  - unfold MS_PER_MINUTE in E. lia.
  - unfold RULE_START, RULE_END, LOCAL_MIN, LOCAL_MAX, MS_PER_MINUTE in *. lia.
  - unfold RULE_START, RULE_END, LOCAL_MIN, LOCAL_MAX, MS_PER_MINUTE in *. lia.
  - unfold MS_PER_MINUTE, MS_PER_SECOND in *. div_mod_lia.
  - unfold MS_PER_MINUTE, MS_PER_SECOND in *. div_mod_lia.
Qed.

Lemma formatRTTimeSlot_of_reading_witness :
  formatRTTimeSlot UTC summer_morning
    (date (utcToEdt UTC (iso summer_night)))
    (time (utcToEdt UTC (iso summer_night)))
  = {| hourStartUtc := iso summer_night;
       timeSlotUtc := iso summer_night;
       intervalEndUtc := iso (summer_night + 5 * MS_PER_MINUTE) |}
  /\ iso (summer_night + 5 * MS_PER_MINUTE) <> iso summer_night
  /\ formatDAHour UTC summer_morning
       (date (utcToEdt UTC (iso summer_night)))
       (time (utcToEdt UTC (iso summer_night))) = iso summer_night.
Proof.
  apply (formatRTTimeSlot_of_reading UTC summer_morning summer_night).
  - unfold RULE_START, RULE_END, summer_night, MS_PER_MINUTE. lia.
  - reflexivity.
  - vm_compute. reflexivity.
  - split; [reflexivity|]. split; [vm_compute; split; discriminate|].
    intros v _. reflexivity.
Defined.

End EasternMore.
(* ================================================================== *)
(** ** More on the API-backed order page *)
(* ================================================================== *)

Section OrderPageMore.
Import Civil Text Range Dayjs Timezone OrderPage Samples.
Local Open Scope string_scope.
Local Open Scope Z_scope.

(** The two P&L routines agree on a filled order with a recorded fill
    price: [calculateRealPnL] with settlement price [sp] is
    [calculatePnL] over the one-price list [[sp]].  They differ on the
    other orders: [calculateRealPnL] gives 0 for an order that is not
    filled and for a filled order without a (non-zero) fill price, where
    [calculatePnL] gives [null] and falls back to [daPrice]. *)
Theorem calculateRealPnL_and_calculatePnL (host : Zone) (o : Api.Order)
  (daPrice : Q) :
  (forall P sp,
      Api.status o = Filled ->
      Api.filled_price o = Some P -> ~ (P == 0)%Q -> ~ (sp == 0)%Q ->
      exists r r',
        calculateRealPnL host o (Some sp) = JsNum.Num r
        /\ Dashboard.calculatePnL [o] daPrice [sp]
           = [Dashboard.mkOrderWithPnl o (Some (JsNum.Num r'))]
        /\ (r == r')%Q)
  /\ (Api.status o <> Filled ->
      forall mp, calculateRealPnL host o mp = JsNum.Num 0
                 /\ Dashboard.calculatePnL [o] daPrice [] 
                    = [Dashboard.mkOrderWithPnl o None])
  /\ (Api.filled_price o = None ->
      forall mp, calculateRealPnL host o mp = JsNum.Num 0).
Proof.
  split; [|split].
  - intros P sp Hs Hf HP Hsp.
    assert (HPb : Qeq_bool P 0 = false)
      by (destruct (Qeq_bool P 0) eqn:E; [apply Qeq_bool_eq in E; contradiction | reflexivity]).
    assert (Hspb : Qeq_bool sp 0 = false)
      by (destruct (Qeq_bool sp 0) eqn:E; [apply Qeq_bool_eq in E; contradiction | reflexivity]).
    unfold calculateRealPnL. rewrite Hf, Hs.
    cbn [JsNum.truthy Status_eqb negb orb]. rewrite HPb, Hspb.
    cbn [negb orb].
    unfold Dashboard.calculatePnL. cbn [map].
    rewrite (rtAverage_nonempty [sp]) by discriminate.
    rewrite (pnlOfOrder_filled _ _ _ Hs).
    rewrite (fillPriceOf_some o daPrice P Hf HP).
    destruct (Api.side o).
    + eexists. eexists. split; [reflexivity|]. split; [reflexivity|].
      apply cents_comp. cbn [fold_left List.length].
      unfold Settlement.bucket_difference. field.
    + eexists. eexists. split; [reflexivity|]. split; [reflexivity|].
      apply cents_comp. cbn [fold_left List.length].
      unfold Settlement.bucket_difference. field.
  - intros Hs mp. unfold calculateRealPnL, Dashboard.calculatePnL.
    cbn [map]. rewrite (pnlOfOrder_not_filled _ _ _ Hs).
    split; [|reflexivity].
    destruct (Api.status o); try congruence;
      cbn [Status_eqb negb]; rewrite orb_true_r; reflexivity.
  - intros Hf mp. unfold calculateRealPnL. rewrite Hf. reflexivity.
Qed.





Lemma digit_plain (x : Z) :
  0 <= x < 10 ->
  is_space (digit x) = false /\ Ascii.eqb (digit x) "-" = false.
Proof.
  intros H.
  assert (Hc : x = 0 \/ x = 1 \/ x = 2 \/ x = 3 \/ x = 4 \/ x = 5
               \/ x = 6 \/ x = 7 \/ x = 8 \/ x = 9) by lia.
  repeat (destruct Hc as [-> | Hc]; [split; reflexivity|]).
  subst x. split; reflexivity.
Qed.

Lemma format_time_plain (d : t) :
  Forall (fun ch => is_space ch = false /\ Ascii.eqb ch "-" = false)
    (list_ascii_of_string (format_time d)).
Proof.
  destruct (clock_fields (localTs d)) as (Hh & Hm & _).
  unfold format_time, Dayjs.hour, Dayjs.minute.
  rewrite !pad2_digits by lia. unfold digits2.
  cbn [append list_ascii_of_string].
  repeat constructor; try (apply digit_plain; div_mod_lia).
Qed.

Lemma split_before_sep (sep : ascii) (a b : string) :
  Forall (fun ch => Ascii.eqb ch sep = false) (list_ascii_of_string a) ->
  split sep (a ++ String sep b) = a :: split sep b.
Proof.
  induction a as [|ch a IH]; intros H.
  - cbn [append split]. rewrite Ascii.eqb_refl. reflexivity.
  - cbn [list_ascii_of_string] in H. inversion H as [|? ? Hch Ha]; subst.
    cbn [append split]. rewrite Hch, (IH Ha). reflexivity.
Qed.

Lemma split_without_sep (sep : ascii) (a : string) :
  Forall (fun ch => Ascii.eqb ch sep = false) (list_ascii_of_string a) ->
  split sep a = [a].
Proof.
  induction a as [|ch a IH]; intros H; [reflexivity|].
  cbn [list_ascii_of_string] in H. inversion H as [|? ? Hch Ha]; subst.
  cbn [split]. rewrite Hch, (IH Ha). reflexivity.
Qed.

Lemma trim_without_space (a : string) :
  Forall (fun ch => is_space ch = false) (list_ascii_of_string a) ->
  trim a = a.
Proof.
  intros H. unfold trim.
  assert (Hs : trimStart a = a).
  { destruct a as [|ch a]; [reflexivity|].
    cbn [list_ascii_of_string] in H. inversion H; subst.
    cbn [trimStart]. now rewrite H2. }
  rewrite Hs. clear Hs.
  induction a as [|ch a IH]; [reflexivity|].
  cbn [list_ascii_of_string] in H. inversion H as [|? ? Hch Ha]; subst.
  cbn [trimEnd]. rewrite (IH Ha), Hch. destruct a; reflexivity.
Qed.

(** Every interval offered by [getNextRTSlots] is accepted by
    [handleCreateOrder]: the order's [hour_start] and [time_slot] are
    the Eastern-time conversion, on the page's date, of the interval
    start as read on the browser's wall clock. *)
Theorem offered_slot_creates_order (host : Zone) (offeredAt now : Z)
  (todayDate : t) (selectedNode : string) (values : FormValues)
  (slot : RTSlotOption) :
  In slot (getNextRTSlots host offeredAt) ->
  timeSlot values = slot_value slot ->
  exists orderData,
    handleCreateOrder host now todayDate selectedNode RealTime values
    = Some orderData
    /\ hour_start orderData
       = edtToUtc host now (format_YYYY_MM_DD (Some todayDate))
           (format_HH_mm (Some (mk (intervalStart slot) host)))
    /\ time_slot orderData = Some (hour_start orderData).
Proof.
  intros Hin Hv. unfold getNextRTSlots in Hin.
  apply in_map_iff in Hin. destruct Hin as (i & <- & _).
  set (k := _ + Z.of_nat i) in *.
  unfold handleCreateOrder. rewrite Hv.
  unfold rtSlotOption. cbn [slot_value intervalStart].
  set (startObj := setMinutes _ 0 0 (dayjs host offeredAt)).
  set (endObj := set_minute _ startObj).
  assert (Eobj : mk (valueOf startObj) host = startObj) by reflexivity.
  rewrite Eobj. cbn [format_HH_mm].
  change ("-" ++ format_time endObj) with (String "-" (format_time endObj)).
  rewrite split_before_sep.
  2:{ eapply Forall_impl; [|apply format_time_plain]. intros ch (_ & H).
      exact H. }
  rewrite split_without_sep.
  2:{ eapply Forall_impl; [|apply format_time_plain]. intros ch (_ & H).
      exact H. }
  rewrite trim_without_space.
  2:{ eapply Forall_impl; [|apply format_time_plain]. intros ch (H & _).
      exact H. }
  eexists. split; [reflexivity|]. split; reflexivity.
Qed.

Lemma offered_slot_creates_order_witness :
  exists orderData,
    handleCreateOrder America_New_York summer_morning
      (dayjs America_New_York summer_morning) "PJM_RTO" RealTime
      (mkFormValues "" "10:30-10:35" Buy 50 1)
    = Some orderData
    /\ hour_start orderData
       = edtToUtc America_New_York summer_morning
           (format_YYYY_MM_DD (Some (dayjs America_New_York summer_morning)))
           (format_HH_mm
              (Some (mk (intervalStart
                           (rtSlotOption America_New_York summer_morning 0))
                        America_New_York)))
    /\ time_slot orderData = Some (hour_start orderData).
Proof.
  apply (offered_slot_creates_order America_New_York summer_morning
           summer_morning (dayjs America_New_York summer_morning) "PJM_RTO"
           (mkFormValues "" "10:30-10:35" Buy 50 1)
           (rtSlotOption America_New_York summer_morning 0)).
  - left. vm_compute. reflexivity.
  - vm_compute. reflexivity.
Defined.

End OrderPageMore.
Section DayAheadHours.
Import Civil Text Range Dayjs Timezone OrderPage Samples.
Local Open Scope string_scope.
Local Open Scope Z_scope.

Lemma Date_UTC_linear (y mo d h mi sec : Z) :
  Date_UTC y mo d h mi sec
  = Date_UTC y mo d 0 0 0
    + h * MS_PER_HOUR + mi * MS_PER_MINUTE + sec * MS_PER_SECOND.
Proof. unfold Date_UTC. lia. Qed.

Lemma Date_UTC_midnight (l : Z) :
  LOCAL_MIN <= l < LOCAL_MAX ->
  Date_UTC (year (date_of l)) (month (date_of l) - 1) (day (date_of l)) 0 0 0
  = l - l mod MS_PER_DAY.
Proof.
  intros Hr. pose proof (Date_UTC_of_fields l Hr) as H. cbv zeta in H.
  rewrite Date_UTC_linear in H.
  set (D := Date_UTC _ _ _ 0 0 0) in *. clearbody D.
  clock_unfold. div_mod_lia.
Qed.

Lemma parseLocal_date_time (d : t) (h mi : Z) :
  LOCAL_MIN <= localTs d < LOCAL_MAX ->
  0 <= h < 100 -> 0 <= mi < 100 ->
  parseLocal (format_date d ++ " " ++ pad 2 h ++ ":" ++ pad 2 mi)
  = Some (localTs d - localTs d mod MS_PER_DAY
          + h * MS_PER_HOUR + mi * MS_PER_MINUTE).
Proof.
  intros Hr Hh Hmi.
  destruct (date_fields _ Hr) as (Hy & Hm & Hd).
  pose proof (Date_UTC_midnight _ Hr) as Hutc. cbv zeta in *.
  unfold parseLocal, format_date.
  rewrite !append_assoc.
  rewrite take_pad4 by lia. cbn [append expect Ascii.eqb Bool.eqb].
  rewrite take_pad2 by lia. cbn [append expect Ascii.eqb Bool.eqb].
  rewrite take_pad2 by lia. cbn [append expect Ascii.eqb Bool.eqb].
  rewrite take_pad2 by lia. cbn [append expect Ascii.eqb Bool.eqb].
  rewrite take_pad2_end by lia.
  f_equal. rewrite Date_UTC_linear, Hutc. unfold MS_PER_SECOND. lia.
Qed.

(** [dayjs.tz] on a date of the page and a clock time: the instant
    found is 4 or 5 hours after that wall-clock value, whatever the
    browser, and in a browser steady around it the object made has that
    instant as its value. *)
Lemma tz_parse_date_time (host : Zone) (now : Z) (d : t) (h mi : Z) :
  LOCAL_MIN <= localTs d < LOCAL_MAX ->
  0 <= h < 24 -> 0 <= mi < 60 ->
  let wall := localTs d - localTs d mod MS_PER_DAY
              + h * MS_PER_HOUR + mi * MS_PER_MINUTE in
  exists start,
    (start = wall + 4 * MS_PER_HOUR \/ start = wall + 5 * MS_PER_HOUR)
    /\ (steady host start ->
        exists o,
          tz_parse host now
            (format_date d ++ " " ++ pad 2 h ++ ":" ++ pad 2 mi)
            MARKET_TIMEZONE
          = Some o
          /\ zonedValueOf host o = start
          /\ zonedValueOf host (zonedAdd 5 Minute o)
             = start + 5 * MS_PER_MINUTE).
Proof.
  intros Hr Hh Hmi. cbv zeta.
  set (wall := localTs d - localTs d mod MS_PER_DAY
               + h * MS_PER_HOUR + mi * MS_PER_MINUTE).
  destruct (fixOffset_New_York_cases wall now) as (ts & off & Hfix & Hts & _).
  exists ts. split.
  - unfold MS_PER_HOUR, MS_PER_MINUTE in *. lia.
  - intros Hs.
    assert (Hp : parseLocal (format_date d ++ " " ++ pad 2 h ++ ":"
                             ++ pad 2 mi) = Some wall)
      by (apply parseLocal_date_time; [exact Hr | lia | lia]).
    destruct (tz_parse_steady host now ts wall _ Hp Hs) as (o & Ho & Hv & Hv5).
    { unfold MS_PER_HOUR, MS_PER_MINUTE in *. lia. }
    rewrite Hfix in Hv, Hv5. cbn [fst] in Hv, Hv5.
    exists o. unfold MARKET_TIMEZONE. auto.
Qed.

(** Every hour offered by [getDayAheadHours], taken on a page date of
    the years 2000 to 9999: it is [HH:00] for an hour [HH] of the day,
    and in a browser steady around the result the order created has no
    [time_slot] and has as its [hour_start] the timestamp of a whole
    UTC hour, 4 or 5 hours after [HH:00] of the page's date. *)
Theorem day_ahead_hour_creates_order (host : Zone) (now : Z)
  (todayDate : t) (selectedNode : string) (values : FormValues)
  (opt : HourOption) :
  In opt getDayAheadHours ->
  hour values = opt_value opt ->
  LOCAL_MIN <= localTs todayDate < LOCAL_MAX ->
  exists HH u,
    0 <= HH < 24
    /\ opt_value opt = pad 2 HH ++ ":00"
    /\ (let wall := localTs todayDate - localTs todayDate mod MS_PER_DAY
                    + HH * MS_PER_HOUR in
        u = wall + 4 * MS_PER_HOUR \/ u = wall + 5 * MS_PER_HOUR)
    /\ u mod MS_PER_HOUR = 0
    /\ (steady host u ->
        exists orderData,
          handleCreateOrder host now todayDate selectedNode DayAhead values
          = Some orderData
          /\ hour_start orderData = iso u
          /\ time_slot orderData = None).
Proof.
  intros Hin Hv Hr. unfold getDayAheadHours in Hin.
  apply in_map_iff in Hin. destruct Hin as (n & <- & Hn).
  apply in_seq in Hn. cbn [opt_value] in Hv.
  destruct (tz_parse_date_time host now todayDate (Z.of_nat n) 0 Hr)
    as (u & Hu & Hparse); [lia | lia |].
  exists (Z.of_nat n), u. cbn [opt_value].
  split; [lia|]. split; [reflexivity|].
  split; [cbv zeta; lia|].
  split; [destruct Hu as [-> | ->]; clock_unfold; div_mod_lia|].
  intros Hs. destruct (Hparse Hs) as (o & Ho & Hval & _).
  unfold handleCreateOrder, formatDAHour. rewrite Hv.
  cbn [format_YYYY_MM_DD].
  change ":00" with (":" ++ pad 2 0). rewrite Ho.
  cbn [option_map]. unfold zonedUtc. rewrite Hval.
  eexists. split; [reflexivity|]. cbn [hour_start time_slot].
  split; [apply format_utc_instant | reflexivity].
Qed.

Lemma day_ahead_hour_creates_order_witness :
  exists HH u,
    0 <= HH < 24
    /\ "14:00" = pad 2 HH ++ ":00"
    /\ (let wall := localTs (dayjs America_New_York summer_morning)
                    - localTs (dayjs America_New_York summer_morning)
                      mod MS_PER_DAY
                    + HH * MS_PER_HOUR in
        u = wall + 4 * MS_PER_HOUR \/ u = wall + 5 * MS_PER_HOUR)
    /\ u mod MS_PER_HOUR = 0
    /\ (steady UTC u ->
        exists orderData,
          handleCreateOrder UTC summer_morning
            (dayjs America_New_York summer_morning) "PJM_RTO" DayAhead
            (mkFormValues "14:00" "" Buy 50 1)
          = Some orderData
          /\ hour_start orderData = iso u
          /\ time_slot orderData = None).
Proof.
  apply (day_ahead_hour_creates_order UTC summer_morning
           (dayjs America_New_York summer_morning) "PJM_RTO"
           (mkFormValues "14:00" "" Buy 50 1)
           (mkHourOption "14:00" "14:00" false)).
  - vm_compute. do 14 right. left. reflexivity.
  - reflexivity.
  - vm_compute. split; [discriminate | reflexivity].
Defined.

End DayAheadHours.

(* ================================================================== *)
(** ** Real-time slots and order creation *)
(* ================================================================== *)

Section SlotStart.
Import Civil Text Range Dayjs Timezone OrderPage Samples.
Local Open Scope string_scope.
Local Open Scope Z_scope.




End SlotStart.

(* ================================================================== *)
(** ** Today's P&L tile *)
(* ================================================================== *)

Section TodaysPnL.
Import Binary64 OrderManagement OrderPage.

Lemma SameValueZero_refl (a : number) : SameValueZero a a.
Proof. left. reflexivity. Qed.

Lemma add_zero_r (a : number) : SameValueZero (add a (of_Z 0)) a.
Proof.
  destruct a as [[|] | s | | s m e];
    try (left; reflexivity).
  right. exists false, true. split; reflexivity.
Qed.

(** Addition does not look at the sign of a zero on its left, except
    to choose the sign of a zero result. *)
Lemma add_same_l (a a' t : number) :
  SameValueZero a a' -> SameValueZero (add a t) (add a' t).
Proof.
  intros [-> | (s & s' & -> & ->)]; [left; reflexivity|].
  destruct t as [st | st | | st mt et]; try (left; reflexivity).
  right. unfold add, SFadd.
  destruct s, s', st; eauto.
Qed.

Lemma SameValueZero_trans (a b c : number) :
  SameValueZero a b -> SameValueZero b c -> SameValueZero a c.
Proof.
  intros [-> | (s & s' & -> & ->)] [<- | (t & t' & E & ->)].
  - left; reflexivity.
  - right; eauto.
  - right; eauto.
  - right; eauto.
Qed.

Lemma SameValueZero_sym (a b : number) :
  SameValueZero a b -> SameValueZero b a.
Proof. intros [-> | (s & s' & -> & ->)]; [left | right]; eauto. Qed.

Lemma today_and_total (l : list Order) :
  (forall o, In o l -> status o <> Filled -> pnlOrZero o = of_Z 0) ->
  forall a a', SameValueZero a a' ->
  SameValueZero
    (fold_left (fun total order => add total (pnlOrZero order))
       (filter (fun o => Status_eqb (status o) Filled) l) a)
    (fold_left (fun sum order => add sum (pnlOrZero order)) l a').
Proof.
  induction l as [|o l IH]; intros H b b' Hb; cbn [filter fold_left].
  - exact Hb.
  - assert (Hl : forall o', In o' l -> status o' <> Filled ->
                            pnlOrZero o' = of_Z 0)
      by (intros o' Ho'; apply H; right; exact Ho').
    destruct (Status_eqb (status o) Filled) eqn:E.
    + cbn [fold_left]. apply (IH Hl), add_same_l, Hb.
    + apply (IH Hl).
      rewrite (H o (or_introl eq_refl))
        by (intros Hs; rewrite Hs in E; discriminate).
      apply (SameValueZero_trans _ b'); [exact Hb|].
      apply SameValueZero_sym, add_zero_r.
Qed.

Lemma filter_none_filled (l : list Order) :
  (forall o, In o l -> status o <> Filled) ->
  filter (fun o => Status_eqb (status o) Filled) l = [].
Proof.
  induction l as [|o l IH]; intros H; [reflexivity|].
  cbn [filter]. destruct (status o) eqn:E.
  - cbn [Status_eqb]. apply IH. intros o' Ho'. apply H. right. exact Ho'.
  - exfalso. apply (H o (or_introl eq_refl)). exact E.
  - cbn [Status_eqb]. apply IH. intros o' Ho'. apply H. right. exact Ho'.
Qed.

Lemma filter_filled_twice (l : list Order) :
  filter (fun o => Status_eqb (status o) Filled)
    (filter (fun o => Status_eqb (status o) Filled) l)
  = filter (fun o => Status_eqb (status o) Filled) l.
Proof.
  induction l as [|o l IH]; [reflexivity|].
  cbn [filter]. destruct (Status_eqb (status o) Filled) eqn:E;
    [cbn [filter]; rewrite E, IH; reflexivity | exact IH].
Qed.

(** [calculateTodaysPnL] counts filled orders only: taking the orders
    that are not filled out of the list changes nothing, nor does
    putting such orders before or after the others, and the result is
    the [totalPnL] of [orderSummary] over the same rows (up to the sign
    of a zero) when no pending or rejected row carries a P&L. *)
Theorem calculateTodaysPnL_filled_only (l l' : list Order) :
  calculateTodaysPnL (filter (fun o => Status_eqb (status o) Filled) l)
  = calculateTodaysPnL l
  /\ ((forall o, In o l' -> status o <> Filled) ->
      calculateTodaysPnL (l ++ l') = calculateTodaysPnL l
      /\ calculateTodaysPnL (l' ++ l) = calculateTodaysPnL l)
  /\ ((forall o, In o l -> status o <> Filled -> pnlOrZero o = of_Z 0) ->
      SameValueZero (calculateTodaysPnL l) (totalPnL (orderSummary l))).
Proof.
  split; [|split].
  - unfold calculateTodaysPnL. cbv zeta. rewrite filter_filled_twice.
    reflexivity.
  - intros H. unfold calculateTodaysPnL. cbv zeta.
    rewrite !filter_app, (filter_none_filled l' H), app_nil_r.
    split; reflexivity.
  - intros H. unfold calculateTodaysPnL, orderSummary. cbv zeta.
    cbn [totalPnL]. apply (today_and_total l H). left. reflexivity.
Qed.

Lemma calculateTodaysPnL_filled_only_witness :
  calculateTodaysPnL (Samples.two_rows ++ [Samples.pending_row])
  = calculateTodaysPnL Samples.two_rows
  /\ SameValueZero (calculateTodaysPnL Samples.two_rows)
       (totalPnL (orderSummary Samples.two_rows)).
Proof.
  destruct (calculateTodaysPnL_filled_only Samples.two_rows
              [Samples.pending_row]) as (_ & Hmore & Htotal).
  split.
  - apply Hmore. intros o [<- | []]. discriminate.
  - apply Htotal. intros o [<- | [<- | []]] Hs;
      [exfalso; apply Hs; reflexivity | reflexivity].
Defined.

End TodaysPnL.
